(** * pytest-perf: the experiment extraction pipeline and the runner cache

    A shallow embedding of [pytest_perf/plugin.py]: the module loader, the
    function discoverer, the specification builder, the memoising runner
    factory and the [Experiment] life cycle, followed by the properties of
    these that the specification of the plugin states.

    Python text is [string] (one [ascii] per code point, so the model covers
    the code points U+0000..U+00FF), Python values are [pyval], a raised
    exception is the [Raise] branch of [result], a [dict] with string keys
    is a [gmap string pyval], and the mutable process state (the cache of
    the runner factory, the experiment objects and their registry) is a
    [world] threaded through the stateful operations. *)

From Stdlib Require Import Ascii String ZArith.
From stdpp Require Import gmap strings list fin_maps sorting.

Set Warnings "-register-all".
Open Scope string_scope.
Open Scope list_scope.

(** ** Exceptions and fallible computations *)

(** The exception classes the plugin can meet.  [SystemExit],
    [KeyboardInterrupt] and [GeneratorExit] derive from [BaseException]
    only; every other class derives from [Exception]. *)
Inductive exc : Type :=
  | AttributeError
  | ImportError
  | ModuleNotFoundError
  | SyntaxError
  | TypeError
  | ValueError
  | OSError
  | OtherException (cls : string)
  | SystemExit
  | KeyboardInterrupt
  | GeneratorExit.

(** [isinstance(e, Exception)] *)
Definition is_Exception (e : exc) : bool :=
  match e with
  | SystemExit | KeyboardInterrupt | GeneratorExit => false
  | _ => true
  end.

(** [isinstance(e, AttributeError)] *)
Definition is_AttributeError (e : exc) : bool :=
  match e with
  | AttributeError => true
  | _ => false
  end.

Inductive result (A : Type) : Type :=
  | Ok (a : A)
  | Raise (e : exc).
Arguments Ok {A} a.
Arguments Raise {A} e.

#[global] Instance result_ret : MRet result := fun A a => Ok a.
#[global] Instance result_bind : MBind result := fun A B f r =>
  match r with
  | Ok a => f a
  | Raise e => Raise e
  end.
#[global] Instance result_fmap : FMap result := fun A B f r =>
  match r with
  | Ok a => Ok (f a)
  | Raise e => Raise e
  end.

(** [with suppress(cls): body], in a function that returns [body]'s value:
    an exception of the class is swallowed and [default] is the outcome. *)
Definition suppress {A} (cls : exc -> bool) (default : A) (body : result A)
  : result A :=
  match body with
  | Ok a => Ok a
  | Raise e => if cls e then Ok default else Raise e
  end.

(** ** Python values *)

Inductive pyval : Type :=
  | PNone
  | PStr (s : string)
  | PInt (n : Z)
  | PList (l : list pyval)
  | PTuple (l : list pyval).

#[global] Instance pyval_eq_dec : EqDecision pyval.
Proof.
  refine (fix go (x y : pyval) {struct x} : Decision (x = y) :=
    let _ : EqDecision pyval := @go in
    match x, y with
    | PNone, PNone => left _
    | PStr s, PStr t => cast_if (decide (s = t))
    | PInt n, PInt m => cast_if (decide (n = m))
    | PList l, PList k => cast_if (decide (l = k))
    | PTuple l, PTuple k => cast_if (decide (l = k))
    | _, _ => right _
    end); abstract congruence.
Defined.

(** [bool(v)] *)
Definition truthy (v : pyval) : bool :=
  match v with
  | PNone => false
  | PStr s => negb (String.eqb s "")
  | PInt n => negb (Z.eqb n 0)
  | PList l | PTuple l => match l with [] => false | _ => true end
  end.

(** [a or b] *)
Definition py_or (a b : pyval) : pyval := if truthy a then a else b.

(** [hash(v)] succeeds: lists, and tuples that hold one, are unhashable. *)
Fixpoint hashable (v : pyval) : bool :=
  match v with
  | PList _ => false
  | PTuple l => forallb hashable l
  | _ => true
  end.

(** The items [iter(v)] yields, for the values that can be iterated. *)
Definition iter_items (v : pyval) : option (list pyval) :=
  match v with
  | PStr s => Some (map (fun c => PStr (String c "")) (list_ascii_of_string s))
  | PList l | PTuple l => Some l
  | PNone | PInt _ => None
  end.

(** [tuple(v)] *)
Definition tuple (v : pyval) : result pyval :=
  match iter_items v with
  | Some items => Ok (PTuple items)
  | None => Raise TypeError
  end.

(** [jaraco.functools.pass_none]: the wrapped function is not called on
    [None], and [None] is the result then. *)
Definition pass_none (func : pyval -> result pyval) (param : pyval)
  : result pyval :=
  match param with
  | PNone => Ok PNone
  | _ => func param
  end.

(** [dict(pairs)]: a later pair replaces an earlier one under the same key. *)
Definition dict (pairs : list (string * pyval)) : gmap string pyval :=
  foldl (fun d kv => <[kv.1 := kv.2]> d) ∅ pairs.

(** ** Text: the [str] methods the plugin calls *)

Definition code (c : ascii) : nat := nat_of_ascii c.

(** [c.isspace()] on U+0000..U+00FF *)
Definition isspace (c : ascii) : bool :=
  let n := code c in
  (((9 <=? n) && (n <=? 13)) || ((28 <=? n) && (n <=? 32))
   || (n =? 133) || (n =? 160))%nat.

(** A line boundary of [str.splitlines]: LF, VT, FF, CR, FS, GS, RS, NEL. *)
Definition is_linebreak (c : ascii) : bool :=
  let n := code c in
  (((10 <=? n) && (n <=? 13)) || ((28 <=? n) && (n <=? 30))
   || (n =? 133))%nat.

(** [\w] of a [str] pattern on U+0000..U+00FF: alphanumeric or underscore. *)
Definition is_word (c : ascii) : bool :=
  let n := code c in
  (((48 <=? n) && (n <=? 57)) || ((65 <=? n) && (n <=? 90)) || (n =? 95)
   || ((97 <=? n) && (n <=? 122))
   || (n =? 170) || (n =? 178) || (n =? 179) || (n =? 181) || (n =? 185)
   || (n =? 186) || ((188 <=? n) && (n <=? 190))
   || ((192 <=? n) && (n <=? 214)) || ((216 <=? n) && (n <=? 246))
   || ((248 <=? n) && (n <=? 255)))%nat.

Fixpoint lstrip (s : string) : string :=
  match s with
  | "" => ""
  | String c s' => if isspace c then lstrip s' else s
  end.

Fixpoint rstrip (s : string) : string :=
  match s with
  | "" => ""
  | String c s' =>
      match rstrip s' with
      | "" => if isspace c then "" else String c ""
      | r => String c r
      end
  end.

(** [s.strip()] *)
Definition strip (s : string) : string := rstrip (lstrip s).

(** [s.splitlines()]: CR LF is one boundary, and a final boundary opens no
    empty last line. *)
Fixpoint splitlines (s : string) : list string :=
  match s with
  | "" => []
  | String c s' =>
      if is_linebreak c then
        "" :: match s' with
              | String d s'' =>
                  if ((code c =? 13) && (code d =? 10))%nat then splitlines s''
                  else splitlines s'
              | "" => []
              end
      else
        match splitlines s' with
        | [] => [String c ""]
        | l :: ls => String c l :: ls
        end
  end.

(** [s.split("\n")]: every piece is kept, so there is always one. *)
Fixpoint split_lf (s : string) : list string :=
  match s with
  | "" => [""]
  | String c s' =>
      if (code c =? 10)%nat then "" :: split_lf s'
      else match split_lf s' with
           | [] => [String c ""]
           | l :: ls => String c l :: ls
           end
  end.

(** ["\n".join(lines)] *)
Fixpoint join_lf (lines : list string) : string :=
  match lines with
  | [] => ""
  | [l] => l
  | l :: ls => l +:+ String "010" (join_lf ls)
  end.

(** What follows the prefix [p] in [s], when [s.startswith(p)]. *)
Fixpoint after_prefix (p s : string) : option string :=
  match p, s with
  | "", _ => Some s
  | String a p', String b s' =>
      if Ascii.eqb a b then after_prefix p' s' else None
  | String _ _, "" => None
  end.

(** [sep in s] *)
Fixpoint str_in (sep s : string) : bool :=
  match after_prefix sep s with
  | Some _ => true
  | None => match s with
            | "" => false
            | String _ s' => str_in sep s'
            end
  end.

(** The text before and after the first occurrence of [sep] in [s]. *)
Fixpoint find_split (sep s : string) : option (string * string) :=
  match after_prefix sep s with
  | Some rest => Some ("", rest)
  | None =>
      match s with
      | "" => None
      | String c s' =>
          match find_split sep s' with
          | Some (a, b) => Some (String c a, b)
          | None => None
          end
      end
  end.

(** The text before and after the last occurrence of [sep] in [s]: an
    occurrence further right wins over one that starts here. *)
Fixpoint rfind_split (sep s : string) : option (string * string) :=
  match s with
  | "" => match after_prefix sep "" with
          | Some rest => Some ("", rest)
          | None => None
          end
  | String c s' =>
      match rfind_split sep s' with
      | Some (a, b) => Some (String c a, b)
      | None => match after_prefix sep s with
                | Some rest => Some ("", rest)
                | None => None
                end
      end
  end.

(** [occurs sep s a b]: [sep] occurs in [s] between [a] and [b]. *)
Definition occurs (sep s a b : string) : Prop := s = a +:+ sep +:+ b.

(** [s.partition(sep)] *)
Definition partition (s sep : string) : result (string * string * string) :=
  if String.eqb sep "" then Raise ValueError
  else match find_split sep s with
       | Some (a, b) => Ok (a, sep, b)
       | None => Ok (s, "", "")
       end.

(** [s.rpartition(sep)] *)
Definition rpartition (s sep : string) : result (string * string * string) :=
  if String.eqb sep "" then Raise ValueError
  else match rfind_split sep s with
       | Some (a, b) => Ok (a, sep, b)
       | None => Ok ("", "", s)
       end.

(** [s.replace(old, new)] for a non-empty [old]: the occurrences are taken
    from the left and do not overlap; [skip] counts the characters of a
    replaced occurrence that are still to be dropped. *)
Fixpoint replace_go (old new : string) (skip : nat) (s : string) : string :=
  match s with
  | "" => ""
  | String c s' =>
      match skip with
      | S k => replace_go old new k s'
      | O =>
          match after_prefix old s with
          | Some _ => new +:+ replace_go old new (String.length old - 1) s'
          | None => String c (replace_go old new 0 s')
          end
      end
  end.

(** [s.replace(old, new)]; an empty [old] matches before every character
    and at the end. *)
Definition replace (s old new : string) : string :=
  match old with
  | "" =>
      new +:+ (fix go (t : string) : string :=
                 match t with
                 | "" => ""
                 | String c t' => String c (new +:+ go t')
                 end) s
  | _ => replace_go old new 0 s
  end.

(** ** [textwrap.dedent]

    The builder takes [textwrap.dedent] as a parameter.  [textwrap_dedent]
    is the function of the standard library, used to run the builder on
    concrete sources: lines of blanks become empty, the margin is the
    longest run of blanks that starts every other non-empty line, and the
    margin is cut from the lines that start with it. *)

(** [[ \t]] *)
Definition is_blank (c : ascii) : bool :=
  ((code c =? 32) || (code c =? 9))%nat.

Fixpoint all_blank (s : string) : bool :=
  match s with
  | "" => true
  | String c s' => is_blank c && all_blank s'
  end.

(** The leading run of blanks of a line. *)
Fixpoint indent_of (s : string) : string :=
  match s with
  | "" => ""
  | String c s' => if is_blank c then String c (indent_of s') else ""
  end.

Fixpoint common_prefix (a b : string) : string :=
  match a, b with
  | String x a', String y b' =>
      if Ascii.eqb x y then String x (common_prefix a' b') else ""
  | _, _ => ""
  end.

Definition margin_step (margin : option string) (indent : string)
  : option string :=
  match margin with
  | None => Some indent
  | Some m =>
      if String.prefix m indent then Some m
      else if String.prefix indent m then Some indent
      else Some (common_prefix m indent)
  end.

Definition cut_margin (m line : string) : string :=
  match after_prefix m line with
  | Some rest => rest
  | None => line
  end.

Definition textwrap_dedent (text : string) : string :=
  let lines := map (fun l => if all_blank l then "" else l) (split_lf text) in
  let indents :=
    map indent_of (filter (fun l => l <> "") lines) in
  match foldl margin_step None indents with
  | Some (String c m) => join_lf (map (cut_margin (String c m)) lines)
  | _ => join_lf lines
  end.

(** ** Regular expressions: the fragment of [re] the discoverer uses *)

Inductive regex : Type :=
  | Eps                       (* the empty pattern *)
  | Lit (c : ascii)           (* a literal character *)
  | WordBoundary              (* \b *)
  | Alt (r1 r2 : regex)       (* r1|r2 *)
  | Cat (r1 r2 : regex).      (* r1 r2 *)

(** A position in the subject: the character before it, if any, and the
    text from it on. *)
Definition position : Type := option ascii * string.

Definition is_word_at (c : option ascii) : bool :=
  match c with
  | Some a => is_word a
  | None => false
  end.

Definition next_char (s : string) : option ascii :=
  match s with
  | "" => None
  | String c _ => Some c
  end.

(** [\b] holds between a word character and a character that is none, the
    outside of the subject counting as none. *)
Definition at_boundary (p : position) : bool :=
  xorb (is_word_at p.1) (is_word_at (next_char p.2)).

(** Every position a match of [r] that starts at [p] can end at, in the
    order the backtracking matcher tries them. *)
Fixpoint rmatch (r : regex) (p : position) : list position :=
  match r with
  | Eps => [p]
  | Lit c =>
      match p.2 with
      | String d s' => if Ascii.eqb c d then [(Some d, s')] else []
      | "" => []
      end
  | WordBoundary => if at_boundary p then [p] else []
  | Alt r1 r2 => rmatch r1 p ++ rmatch r2 p
  | Cat r1 r2 => flat_map (rmatch r2) (rmatch r1 p)
  end.

Fixpoint search_from (r : regex) (prev : option ascii) (s : string) : bool :=
  match rmatch r (prev, s) with
  | _ :: _ => true
  | [] =>
      match s with
      | "" => false
      | String c s' => search_from r (Some c) s'
      end
  end.

(** [bool(re.search(r, s))]: a match starts at some position of [s]. *)
Definition re_search (r : regex) (s : string) : bool := search_from r None s.

(** The pattern of a literal text. *)
Fixpoint lits (s : string) : regex :=
  match s with
  | "" => Eps
  | String c s' => Cat (Lit c) (lits s')
  end.

(** [r'(\b|_)perf(\b|_)'] *)
Definition perf_re : regex :=
  Cat (Alt WordBoundary (Lit "_"))
      (Cat (lits "perf") (Alt WordBoundary (Lit "_"))).

(** ** Functions and modules as the plugin sees them *)

Record pyfunc : Type := {
  __name__ : string;
  __doc__ : pyval;
  __dict__ : gmap string pyval;   (* the attributes set on the function *)
  getsource : result string;      (* what [inspect.getsource] gives for it *)
}.

(** [getattr(f, name)] for an attribute that is not a built-in one. *)
Definition getattr (f : pyfunc) (name : string) : result pyval :=
  match __dict__ f !! name with
  | Some v => Ok v
  | None => Raise AttributeError
  end.

Inductive pyobj : Type :=
  | Func (f : pyfunc)
  | Val (v : pyval)
  | Builtin (name : string).   (* a method of a built-in type *)

(** A module object: its namespace, one entry per name. *)
Record module : Type := { namespace : list (string * pyobj) }.

(** [dir(None)] *)
Definition NoneType_dir : list string :=
  [ "__bool__"; "__class__"; "__delattr__"; "__dir__"; "__doc__"; "__eq__";
    "__format__"; "__ge__"; "__getattribute__"; "__getstate__"; "__gt__";
    "__hash__"; "__init__"; "__init_subclass__"; "__le__"; "__lt__";
    "__ne__"; "__new__"; "__reduce__"; "__reduce_ex__"; "__repr__";
    "__setattr__"; "__sizeof__"; "__str__"; "__subclasshook__" ].

(** [dir(mod)], where [mod] is [None] or a module that defines no
    [__dir__] of its own (a module-level [__dir__] would be called in its
    place): the names, sorted. *)
Definition dir (mod_ : option module) : list string :=
  match mod_ with
  | Some m => merge_sort String.le (map fst (namespace m))
  | None => NoneType_dir
  end.

Definition lookup_name (name : string) (ns : list (string * pyobj))
  : option pyobj :=
  snd <$> find (fun kv => String.eqb kv.1 name) ns.

(** [getattr(mod, name)] *)
Definition getattr_mod (mod_ : option module) (name : string)
  : result pyobj :=
  match mod_ with
  | Some m =>
      match lookup_name name (namespace m) with
      | Some o => Ok o
      | None => Raise AttributeError
      end
  | None =>
      if bool_decide (name ∈ NoneType_dir) then Ok (Builtin name)
      else Raise AttributeError
  end.

(** ** The module loader and the function discoverer *)

Section Discovery.
(** [importlib.util] and the loader of a module spec. *)
Variable ModuleSpec : Type.
Variable find_spec : string -> result (option ModuleSpec).
Variable module_from_spec : ModuleSpec -> result module.
Variable exec_module : ModuleSpec -> module -> result module.

(** The body of [load_module]; [module_from_spec(None)] fails on the
    attributes of the spec it reads. *)
Definition load_module_body (name : string) : result (option module) :=
  spec ← find_spec name;
  match spec with
  | None => Raise AttributeError
  | Some sp =>
      mod_ ← module_from_spec sp;
      mod_ ← exec_module sp mod_;
      Ok (Some mod_)
  end.

(** [@suppress(Exception) def load_module(name)] *)
Definition load_module (name : string) : result (option module) :=
  suppress is_Exception None (load_module_body name).

(** The name test of the discoverer. *)
Definition eligible (name : string) : bool := re_search perf_re name.

Definition funcs_from_name (name : string) : result (list pyobj) :=
  '(mod_path, sep, rest) ← rpartition name ".";
  let mod_name := replace mod_path "/" "." in
  mod_ ← load_module mod_name;
  mapM (getattr_mod mod_) (filter (fun n => eligible n = true) (dir mod_)).
End Discovery.

(** ** The specification builder *)

(** [@pass_none def first_line(text)]: the first line, stripped, or [None]
    when the text has no line. *)
Definition first_line : pyval -> result pyval :=
  pass_none (fun text =>
    match text with
    | PStr t =>
        let lines := map strip (splitlines t) in
        Ok (match lines with
            | l :: _ => PStr l
            | [] => PNone
            end)
    | _ => Raise AttributeError   (* no [splitlines] on other values *)
    end).

(** [freeze = pass_none(tuple)] *)
Definition freeze : pyval -> result pyval := pass_none tuple.

(** The marker between the warmup and the exercise. *)
Definition marker : string := "# end warmup".

(** The pair a [with suppress(AttributeError)] block of the builder
    yields for the attribute [k], when the block does not raise. *)
Definition attr_field (f : pyfunc) (k : string) (wrap : pyval -> result pyval)
  : result (list (string * pyval)) :=
  suppress is_AttributeError []
    (v ← getattr f k; t ← wrap v; Ok [(k, t)]).

Section Builder.
Variable dedent : string -> string.

(** Lines 119 and 120 of the builder: the dedented body of the function. *)
Definition dedented_body (f : pyfunc) : result string :=
  src ← getsource f;
  '(_header, _sep, _body_ind) ← partition src (String ":" (String "010" ""));
  Ok (dedent _body_ind).

(** What [rpartition] makes of the body: the texts around the last marker,
    or nothing and the body. *)
Definition split_body (body : string) : string * string :=
  match rfind_split marker body with
  | Some (a, b) => (a, b)
  | None => ("", body)
  end.


(** The pairs the generator under [@apply(dict)] yields, in order. *)
Definition spec_from_func_pairs (_func : pyfunc)
  : result (list (string * pyval)) :=
  doc_line ← first_line (__doc__ _func);
  let y_name := [("name", py_or doc_line (PStr (__name__ _func)))] in
  y_extras ← suppress is_AttributeError []
    (v ← getattr _func "extras"; t ← freeze v; Ok [("extras", t)]);
  y_deps ← suppress is_AttributeError []
    (v ← getattr _func "deps"; t ← freeze v; Ok [("deps", t)]);
  y_control ← suppress is_AttributeError []
    (v ← getattr _func "control"; Ok [("control", v)]);
  src ← getsource _func;
  '(_header, _sep, _body_ind) ← partition src (String ":" (String "010" ""));
  let _body := dedent _body_ind in
  '(warmup, sep, exercise) ← rpartition _body "# end warmup";
  let y_warmup :=
    if truthy (PStr warmup) then [("warmup", PStr warmup)] else [] in
  Ok (y_name ++ y_extras ++ y_deps ++ y_control ++ y_warmup
      ++ [("exercise", PStr exercise)]).

Definition spec_from_func (_func : pyfunc) : result (gmap string pyval) :=
  dict <$> spec_from_func_pairs _func.
End Builder.

(** ** The runner factory and the experiments *)

(** Keyword arguments, in the order they are passed. *)
Abbreviation kwargs := (list (string * pyval)).

(** [jaraco.functools.assign_params(func, namespace)]: the parameters of
    [func] that are keys of [namespace], in the order of the signature. *)
Definition assign_params (params : list string)
    (namespace : gmap string pyval) : kwargs :=
  omap (fun k => (fun v => (k, v)) <$> namespace !! k) params.

(** A [BenchmarkRunner] instance: its identity and what it was built from. *)
Record Runner : Type := { runner_id : nat; runner_kwargs : kwargs }.

(** A [Command] instance. *)
Record Command : Type := { command_kwargs : kwargs }.

Record Experiment : Type := {
  name : string;
  spec : gmap string pyval;
  command : Command;
  results : option pyval;   (* [None]: the attribute is not set *)
}.

(** The state of the process: the cache of [runner_factory] with the most
    recently used entry first, the number of runners allocated so far, and
    [Experiment._instances]. *)
Record world : Type := {
  cache : list (kwargs * Runner);
  next_id : nat;
  _instances : list Experiment;
}.

Definition initial_world : world :=
  {| cache := []; next_id := 0; _instances := [] |}.

(** The default [maxsize] of [functools.lru_cache()]. *)
Definition maxsize : nat := 128.

Definition set_cache (c : list (kwargs * Runner)) (w : world) : world :=
  {| cache := c; next_id := next_id w; _instances := _instances w |}.

(** [runner_factory.cache_clear()], and with it [pytest_sessionfinish]. *)
Definition cache_clear (w : world) : world := set_cache [] w.

Definition pytest_sessionfinish (w : world) : world := cache_clear w.

Section Session.
(** [pytest_perf.runner]: the parameter names of the two constructors,
    whether a construction goes through, and what a run gives. *)
Variable Runner_params : list string.
Variable Runner_init : kwargs -> result unit.
Variable Command_params : list string.
Variable Command_init : kwargs -> result unit.
Variable Runner_run : Runner -> Command -> result pyval.

(** [runner.BenchmarkRunner] called with the keyword arguments [kw]: a
    new object, then its [__init__]. *)
Definition BenchmarkRunner (kw : kwargs) (w : world)
  : result Runner * world :=
  let w' := {| cache := cache w; next_id := S (next_id w);
               _instances := _instances w |} in
  match Runner_init kw with
  | Ok _ => (Ok {| runner_id := next_id w; runner_kwargs := kw |}, w')
  | Raise e => (Raise e, w')
  end.

(** [runner_factory = functools.lru_cache()(runner.BenchmarkRunner)],
    called with keyword arguments.  The key is the sequence of the
    keyword items; it must be hashable.  A hit moves the entry to the
    front; a miss calls the constructor and stores the result, in place
    of the least recently used entry when the cache is full. *)
Definition runner_factory (kw : kwargs) (w : world)
  : result Runner * world :=
  if negb (forallb (fun kv => hashable kv.2) kw) then (Raise TypeError, w)
  else
    match find (fun e => bool_decide (e.1 = kw)) (cache w) with
    | Some (_, r) =>
        (Ok r, set_cache ((kw, r) :: filter (fun e => e.1 <> kw) (cache w)) w)
    | None =>
        match BenchmarkRunner kw w with
        | (Ok r, w') =>
            let kept :=
              if (length (cache w') <? maxsize)%nat then cache w'
              else removelast (cache w') in
            (Ok r, set_cache ((kw, r) :: kept) w')
        | (Raise e, w') => (Raise e, w')
        end
    end.

(** The state after a sequence of calls of the factory, whatever each of
    them gives. *)
Definition run_calls (calls : list kwargs) (w : world) : world :=
  foldl (fun w kw => (runner_factory kw w).2) w calls.

(** [Experiment.__init__(self, name, parent, spec)]: the new experiment
    is appended to the registry. *)
Definition Experiment_init (name : string) (spec : gmap string pyval)
    (w : world) : result Experiment * world :=
  let kw := assign_params Command_params spec in
  match Command_init kw with
  | Raise e => (Raise e, w)
  | Ok _ =>
      let self := {| name := name; spec := spec;
                     command := {| command_kwargs := kw |};
                     results := None |} in
      (Ok self, {| cache := cache w; next_id := next_id w;
                   _instances := _instances w ++ [self] |})
  end.

(** The property [Experiment.runner] *)
Definition runner (self : Experiment) (w : world) : result Runner * world :=
  runner_factory (assign_params Runner_params (spec self)) w.

(** [Experiment.runtest(self)]; the experiment with [results] set is
    returned. *)
Definition runtest (self : Experiment) (w : world)
  : result Experiment * world :=
  match runner self w with
  | (Raise e, w') => (Raise e, w')
  | (Ok r, w') =>
      match Runner_run r (command self) with
      | Raise e => (Raise e, w')
      | Ok v =>
          (Ok {| name := name self; spec := spec self;
                 command := command self; results := Some v |}, w')
      end
  end.

(** [runtest] on the [i]-th experiment of the registry, which holds the
    object itself: the registry sees [results] once it is set. *)
Definition runtest_instance (i : nat) (w : world)
  : option (result unit * world) :=
  self ← _instances w !! i;
  Some match runtest self w with
       | (Raise e, w') => (Raise e, w')
       | (Ok self', w') =>
           (Ok tt, {| cache := cache w'; next_id := next_id w';
                      _instances := <[i := self']> (_instances w') |})
       end.
End Session.

(** [Experiment.__bool__(self)]: [hasattr(self, 'results')] *)
Definition Experiment_bool (self : Experiment) : bool :=
  match results self with
  | Some _ => true
  | None => false
  end.

(** The experiments [pytest_terminal_summary] reports:
    [filter(None, Experiment._instances)]. *)
Definition reported (w : world) : list Experiment :=
  filter (fun e => Experiment_bool e = true) (_instances w).

(** ** The vocabulary of the specification *)

(** "The first non-blank stripped line" of a documentation text. *)
Definition spec_first_nonblank_line (doc : string) : option string :=
  head (filter (fun l => l <> "") (map strip (splitlines doc))).

(** "The marker on its own line": one of the lines of the body is the
    marker and nothing else. *)
Definition on_own_line (m body : string) : Prop := m ∈ split_lf body.

(** The last character of a text, if any. *)
Fixpoint last_char (s : string) : option ascii :=
  match s with
  | "" => None
  | String c s' => match last_char s' with
                   | None => Some c
                   | Some d => Some d
                   end
  end.

(** What may stand next to "perf" in an eligible name: nothing, a
    character that is no word character, or an underscore. *)
Definition edge_ok (c : option ascii) : bool :=
  match c with
  | None => true
  | Some a => negb (is_word a) || Ascii.eqb a "_"
  end.

(** The character before the position that follows [a], when [prev] is the
    one before [a]. *)
Definition prev_after (prev : option ascii) (a : string) : option ascii :=
  match last_char a with
  | Some c => Some c
  | None => prev
  end.

(** The text from a position on opens with "perf" and a right edge. *)
Definition perf_here (t : string) : Prop :=
  exists post, t = "perf" +:+ post /\ edge_ok (next_char post) = true.

(** ** Sample functions *)

Definition LF : string := String "010" "".

(** [def thing_perf(): ...] with a docstring, a [deps] attribute and a
    marker between two statements. *)
Definition thing_perf : pyfunc :=
  {| __name__ := "thing_perf";
     __doc__ := PStr "Widget timing";
     __dict__ := {[ "deps" := PList [PStr "lib"] ]};
     getsource := Ok ("def thing_perf():" +:+ LF +:+
                      "    setup()" +:+ LF +:+
                      "    # end warmup" +:+ LF +:+
                      "    measure()" +:+ LF) |}.

(** A function without docstring, attributes or marker. *)
Definition plain_perf : pyfunc :=
  {| __name__ := "plain_perf";
     __doc__ := PNone;
     __dict__ := ∅;
     getsource := Ok ("def plain_perf():" +:+ LF +:+
                      "    measure()" +:+ LF) |}.

(** A function whose docstring opens with a blank line, whose body opens
    with the marker, and whose [extras] attribute is [None]. *)
Definition odd_perf : pyfunc :=
  {| __name__ := "odd_perf";
     __doc__ := PStr (LF +:+ "    Odd timing" +:+ LF +:+ "    ");
     __dict__ := {[ "extras" := PNone; "control" := PStr "v1.0" ]};
     getsource := Ok ("def odd_perf():" +:+ LF +:+
                      "    # end warmup" +:+ LF +:+
                      "    measure()" +:+ LF) |}.

(** The specs the builder gives for them. *)
Definition thing_perf_spec : gmap string pyval :=
  dict [ ("name", PStr "Widget timing"); ("deps", PTuple [PStr "lib"]);
         ("warmup", PStr ("setup()" +:+ LF));
         ("exercise", PStr (LF +:+ "measure()" +:+ LF)) ].

Definition plain_perf_spec : gmap string pyval :=
  dict [ ("name", PStr "plain_perf");
         ("exercise", PStr ("measure()" +:+ LF)) ].

Definition odd_perf_spec : gmap string pyval :=
  dict [ ("name", PStr "odd_perf"); ("extras", PNone);
         ("control", PStr "v1.0");
         ("exercise", PStr (LF +:+ "measure()" +:+ LF)) ].

(** A function with the marker text twice, once at the end of a longer
    line. *)
Definition twice_perf : pyfunc :=
  {| __name__ := "twice_perf";
     __doc__ := PNone;
     __dict__ := ∅;
     getsource := Ok ("def twice_perf():" +:+ LF +:+
                      "    a()  # end warmup" +:+ LF +:+
                      "    b()" +:+ LF +:+
                      "    # end warmup" +:+ LF +:+
                      "    c()" +:+ LF) |}.

Definition twice_perf_spec : gmap string pyval :=
  dict [ ("name", PStr "twice_perf");
         ("warmup", PStr ("a()  # end warmup" +:+ LF +:+ "b()" +:+ LF));
         ("exercise", PStr (LF +:+ "c()" +:+ LF)) ].

(** A function whose body opens with the marker text, at the head of a
    longer line. *)
Definition early_perf : pyfunc :=
  {| __name__ := "early_perf";
     __doc__ := PNone;
     __dict__ := ∅;
     getsource := Ok ("def early_perf():" +:+ LF +:+
                      "    # end warmup: nothing to set up" +:+ LF +:+
                      "    measure()" +:+ LF) |}.

Definition early_perf_spec : gmap string pyval :=
  dict [ ("name", PStr "early_perf");
         ("exercise", PStr (": nothing to set up" +:+ LF +:+
                            "measure()" +:+ LF)) ].

(** ** Sample import systems *)

(** No module is found: [find_spec] gives [None]. *)
Definition find_nothing : string -> result (option unit) :=
  fun _ => Ok None.

(** Every module is found and created. *)
Definition find_any : string -> result (option unit) :=
  fun _ => Ok (Some tt).

Definition create_empty : unit -> result module :=
  fun _ => Ok {| namespace := [] |}.

(** The module calls [sys.exit()] when it is executed. *)
Definition exec_exits : unit -> module -> result module :=
  fun _ _ => Raise SystemExit.

(** The execution of the module fails on a name that is not defined. *)
Definition exec_fails : unit -> module -> result module :=
  fun _ _ => Raise (OtherException "NameError").

(** The entry of [kw] is in the cache, and the entries in front of it are
    distinct argument sets among [others]. *)
Definition retained (kw : kwargs) (r : Runner) (others : list kwargs)
    (c : list (kwargs * Runner)) : Prop :=
  exists pre post,
    c = pre ++ (kw, r) :: post /\
    (kw ∉ pre.*1) /\ NoDup (pre.*1) /\
    (forall k, k ∈ pre.*1 -> k ∈ others).

(** ** A sample session *)

(** Constructors that accept everything. *)
Definition always_ok : kwargs -> result unit := fun _ => Ok tt.

(** A run that gives an empty list of results. *)
Definition run_empty : Runner -> Command -> result pyval :=
  fun _ _ => Ok (PList []).

(** The arguments for the [n]-th of a family of baselines. *)
Definition sample_kwargs (n : nat) : kwargs :=
  [ ("target", PStr ".");
    ("baseline", PStr (string_of_list_ascii (repeat "x"%char n))) ].

Definition sample_spec : gmap string pyval :=
  dict [ ("target", PStr "."); ("baseline", PNone);
         ("name", PStr "Widget timing");
         ("exercise", PStr "measure()") ].

(** The experiment built from [sample_spec], before and after its run. *)
Definition sample_experiment : Experiment :=
  {| name := "perf_widget.py:Widget timing";
     spec := sample_spec;
     command := {| command_kwargs := [("exercise", PStr "measure()")] |};
     results := None |}.

Definition sample_experiment_ran : Experiment :=
  {| name := "perf_widget.py:Widget timing";
     spec := sample_spec;
     command := {| command_kwargs := [("exercise", PStr "measure()")] |};
     results := Some (PList []) |}.

Definition sample_runner : Runner :=
  {| runner_id := 0;
     runner_kwargs := [("target", PStr "."); ("baseline", PNone)] |}.

Definition sample_world : world :=
  {| cache := []; next_id := 0; _instances := [sample_experiment] |}.

Definition sample_world_ran : world :=
  {| cache := [([("target", PStr "."); ("baseline", PNone)], sample_runner)];
     next_id := 1;
     _instances := [sample_experiment] |}.

(** ** The hooks of the host and the collection of a file *)

(** [s.endswith(suffix)]: the suffix is the text, or ends what follows
    its first character. *)
Fixpoint endswith (s suffix : string) : bool :=
  if String.eqb s suffix then true
  else match s with
       | "" => false
       | String _ s' => endswith s' suffix
       end.

(** The path the host offers for collection: its base name, the name of
    the node made of it, and what reading it as text gives. *)
Record path : Type := {
  basename : string;
  nodename : string;
  read_text : result string;
}.

(** The options [pytest_addoption] registers, as the configuration holds
    them: [--perf-target] and [--perf-baseline]. *)
Record config : Type := {
  perf_target : pyval;
  perf_baseline : pyval;
}.

(** The defaults of the two options. *)
Definition default_config : config :=
  {| perf_target := PStr "."; perf_baseline := PNone |}.

(** The collection node of a file. *)
Record File : Type := {
  File_name : string;
  File_target : pyval;
  File_baseline : pyval;
}.

(** [pytest_collect_file(path, parent)]: [None] for a file that is not
    taken.  The text of the file is read only when the name ends in
    [.py]. *)
Definition pytest_collect_file (p : path) (c : config) : result (option File) :=
  if endswith (basename p) ".py" then
    text ← read_text p;
    if str_in "pytest_perf" text then
      Ok (Some {| File_name := nodename p;
                  File_target := perf_target c;
                  File_baseline := perf_baseline c |})
    else Ok None
  else Ok None.

(** What the terminal reporter is asked to write. *)
Inductive report : Type :=
  | section (title : string)
  | write_line (line : string).

(** A predicate on every character of a text. *)
Fixpoint string_forall (P : ascii -> bool) (s : string) : bool :=
  match s with
  | "" => true
  | String c s' => P c && string_forall P s'
  end.

(** A text without a line boundary. *)
Definition single_line (s : string) : bool :=
  string_forall (fun c => negb (is_linebreak c)) s.

Definition is_space_at (c : option ascii) : bool :=
  match c with
  | Some a => isspace a
  | None => false
  end.

(** A text that neither begins nor ends with whitespace. *)
Definition trimmed (s : string) : bool :=
  negb (is_space_at (next_char s)) && negb (is_space_at (last_char s)).

(** The documentation of the function is [None] or a text. *)
Definition doc_ok (f : pyfunc) : Prop :=
  __doc__ f = PNone \/ exists t, __doc__ f = PStr t.

(** The attribute [k] of the function, if it is there, is [None] or can be
    iterated. *)
Definition attr_ok (f : pyfunc) (k : string) : Prop :=
  forall v, __dict__ f !! k = Some v -> v = PNone \/ is_Some (iter_items v).

(** The module defines no [__dir__] of its own: [dir] lists the names of
    its namespace. *)
Definition default_dir (m : module) : Prop :=
  lookup_name "__dir__" (namespace m) = None.

(** A value that is [None] or a text.  Two such values are equal for
    Python exactly when they are the same value. *)
Definition text_or_none (v : pyval) : bool :=
  match v with
  | PNone | PStr _ => true
  | _ => false
  end.

(** Keyword arguments whose values are all [None] or texts, as a target
    and a baseline are. *)
Definition plain_kwargs (kw : kwargs) : Prop :=
  Forall (fun kv => text_or_none kv.2 = true) kw.

(** The text between the header of a function and its body. *)
Definition colon_newline : string := String ":" (String "010" "").

(** Membership in a list that is written out. *)
Ltac in_list :=
  repeat first [apply list_elem_of_here | apply list_elem_of_further].

(** The cache of the factory as the factory keeps it: no two entries
    under one key or with one runner, every runner built from its key and
    before now, and no more entries than [maxsize]. *)
Definition cache_wf (w : world) : Prop :=
  NoDup (cache w).*1 /\
  NoDup (runner_id <$> (cache w).*2) /\
  (forall k r, (k, r) ∈ cache w ->
     runner_kwargs r = k /\ runner_id r < next_id w) /\
  length (cache w) <= maxsize.

Section Collection.
Variable dedent : string -> string.
Variable ModuleSpec : Type.
Variable find_spec : string -> result (option ModuleSpec).
Variable module_from_spec : ModuleSpec -> result module.
Variable exec_module : ModuleSpec -> module -> result module.
Variable Command_params : list string.
Variable Command_init : kwargs -> result unit.

(** [str(v)] for a value that is no text, and [spec_from_func] on an
    object that is no function: both depend on the built-in attributes of
    the object. *)
Variable str_of : pyval -> string.
Variable spec_from_object : pyobj -> result (gmap string pyval).

(** [str(v)], and with it the formatting of [v] in an f-string. *)
Definition py_str (v : pyval) : string :=
  match v with
  | PStr s => s
  | _ => str_of v
  end.

(** [Experiment.__str__(self)]: there is no [results] to format before
    the run. *)
Definition Experiment_str (self : Experiment) : result string :=
  match results self with
  | Some v => Ok (name self +:+ ": " +:+ py_str v)
  | None => Raise AttributeError
  end.

(** The lines written for the items, and whether all of them could be
    written. *)
Fixpoint write_lines (items : list Experiment) : list report * result unit :=
  match items with
  | [] => ([], Ok tt)
  | e :: rest =>
      match Experiment_str e with
      | Raise x => ([], Raise x)
      | Ok line =>
          let '(out, r) := write_lines rest in (write_line line :: out, r)
      end
  end.

(** [pytest_terminal_summary(terminalreporter, config)]: the section is
    opened when the peekable has an item. *)
Definition pytest_terminal_summary (w : world) : list report * result unit :=
  let items := reported w in
  let head := match items with
              | [] => []
              | _ :: _ => [section "perf"]
              end in
  let '(out, r) := write_lines items in (head ++ out, r).

(** [spec_from_func] on what the discoverer yields. *)
Definition spec_from_obj (o : pyobj) : result (gmap string pyval) :=
  match o with
  | Func f => spec_from_func dedent f
  | _ => spec_from_object o
  end.

(** [{"target": self.target, "baseline": self.baseline, **spec}] *)
Definition merged_spec (self : File) (spec : gmap string pyval)
  : gmap string pyval :=
  spec ∪ dict [("target", File_target self); ("baseline", File_baseline self)].

(** One step of the generator of [File.collect]: the spec of the object,
    and the experiment made of it. *)
Definition collect_one (self : File) (o : pyobj) (w : world)
  : result Experiment * world :=
  match spec_from_obj o with
  | Raise e => (Raise e, w)
  | Ok spec =>
      match spec !! "name" with
      | None => (Raise (OtherException "KeyError"), w)
      | Some n =>
          Experiment_init Command_params Command_init
            (File_name self +:+ ":" +:+ py_str n) (merged_spec self spec) w
      end
  end.

Fixpoint collect_all (self : File) (objs : list pyobj) (w : world)
  : result (list Experiment) * world :=
  match objs with
  | [] => (Ok [], w)
  | o :: rest =>
      match collect_one self o w with
      | (Raise e, w') => (Raise e, w')
      | (Ok x, w') =>
          match collect_all self rest w' with
          | (Raise e, w'') => (Raise e, w'')
          | (Ok xs, w'') => (Ok (x :: xs), w'')
          end
      end
  end.

(** [File.collect(self)], the generator run to its end. *)
Definition collect (self : File) (w : world)
  : result (list Experiment) * world :=
  match funcs_from_name ModuleSpec find_spec module_from_spec exec_module
          (File_name self) with
  | Raise e => (Raise e, w)
  | Ok objs => collect_all self objs w
  end.
End Collection.

(** ** A sample collection *)

(** A module with [thing_perf], and a name that is not eligible. *)
Definition sample_module : module :=
  {| namespace := [ ("thing_perf", Func thing_perf);
                    ("performance", Val (PInt 3)) ] |}.

Definition exec_sample : unit -> module -> result module :=
  fun _ _ => Ok sample_module.

Definition sample_file : File :=
  {| File_name := "tests/perf_widget.py";
     File_target := PStr "."; File_baseline := PNone |}.

Definition sample_path : path :=
  {| basename := "perf_widget.py"; nodename := "tests/perf_widget.py";
     read_text := Ok ("from pytest_perf.deco import deps" +:+ LF) |}.

(** A file that is no Python source and cannot be read. *)
Definition unreadable_path : path :=
  {| basename := "notes.bin"; nodename := "notes.bin";
     read_text := Raise OSError |}.

Definition no_str : pyval -> string := fun _ => "".
Definition no_spec : pyobj -> result (gmap string pyval) :=
  fun _ => Raise TypeError.

(** A function made at run time: there is no source to get. *)
Definition synthetic_perf : pyfunc :=
  {| __name__ := "synthetic_perf";
     __doc__ := PNone;
     __dict__ := ∅;
     getsource := Raise OSError |}.

(** A function whose [extras] attribute is a number. *)
Definition bad_extras_perf : pyfunc :=
  {| __name__ := "bad_extras_perf";
     __doc__ := PStr "Bad extras";
     __dict__ := {[ "extras" := PInt 3 ]};
     getsource := Ok ("def bad_extras_perf():" +:+ LF +:+
                      "    measure()" +:+ LF) |}.

(** A function written on one line. *)
Definition inline_perf : pyfunc :=
  {| __name__ := "inline_perf";
     __doc__ := PNone;
     __dict__ := ∅;
     getsource := Ok ("def inline_perf(): measure()" +:+ LF) |}.

(** A second experiment on the same target and baseline. *)
Definition other_experiment : Experiment :=
  {| name := "perf_widget.py:Other timing";
     spec := dict [ ("target", PStr "."); ("baseline", PNone);
                    ("name", PStr "Other timing");
                    ("exercise", PStr "other()") ];
     command := {| command_kwargs := [("exercise", PStr "other()")] |};
     results := None |}.

(** A run that fails. *)
Definition run_fails : Runner -> Command -> result pyval :=
  fun _ _ => Raise (OtherException "RuntimeError").

(** Arguments that cannot be hashed: the target is a list. *)
Definition unhashable_kwargs : kwargs := [("target", PList [PStr "."])].

(** The runner with the identity [i] for the [n]-th sample arguments. *)
Definition sample_runner_of (i n : nat) : Runner :=
  {| runner_id := i; runner_kwargs := sample_kwargs n |}.

(** The experiment made of [thing_perf] in [sample_file]. *)
Definition collected_thing : Experiment :=
  {| name := "tests/perf_widget.py:Widget timing";
     spec := merged_spec sample_file thing_perf_spec;
     command :=
       {| command_kwargs :=
            assign_params ["exercise"; "warmup"]
              (merged_spec sample_file thing_perf_spec) |};
     results := None |}.

(** * Properties *)

(** ** Text *)

Lemma app_cons (c : ascii) (a b : string) :
  String c a +:+ b = String c (a +:+ b).
Proof. reflexivity. Qed.

Lemma app_empty_l (s : string) : "" +:+ s = s.
Proof. reflexivity. Qed.

Lemma app_empty_r (s : string) : s +:+ "" = s.
Proof. induction s as [|c s IH]; [done|]. by rewrite app_cons, IH. Qed.

Lemma app_assoc_s (a b c : string) : (a +:+ b) +:+ c = a +:+ (b +:+ c).
Proof. induction a as [|x a IH]; [done|]. by rewrite !app_cons, IH. Qed.

Lemma app_eq_empty (a b : string) : a +:+ b = "" -> a = "" /\ b = "".
Proof. destruct a; [done|]. rewrite app_cons. discriminate. Qed.

Lemma length_app_s (a b : string) :
  String.length (a +:+ b) = String.length a + String.length b.
Proof. induction a as [|x a IH]; [done|]. rewrite app_cons. simpl. lia. Qed.

Lemma after_prefix_Some (p s r : string) :
  after_prefix p s = Some r <-> s = p +:+ r.
Proof.
  revert s. induction p as [|a p IH]; intros s; simpl.
  - rewrite app_empty_l. split; congruence.
  - destruct s as [|b s]; [done|]. rewrite app_cons.
    destruct (Ascii.eqb_spec a b) as [->|Hne].
    + rewrite IH. split; congruence.
    + split; [done|]. intros [=]. done.
Qed.

Lemma after_prefix_app (p r : string) : after_prefix p (p +:+ r) = Some r.
Proof. by apply after_prefix_Some. Qed.

Lemma after_prefix_None (p s : string) :
  after_prefix p s = None <-> forall r, s <> p +:+ r.
Proof.
  split.
  - intros H r Hr. apply after_prefix_Some in Hr. congruence.
  - intros H. destruct (after_prefix p s) as [r|] eqn:E; [|done].
    apply after_prefix_Some in E. by destruct (H r).
Qed.

Lemma occurs_cons_inv (sep : string) (c : ascii) (s a b : string) :
  occurs sep (String c s) a b ->
  (a = "" /\ String c s = sep +:+ b)
  \/ exists a', a = String c a' /\ occurs sep s a' b.
Proof.
  unfold occurs. destruct a as [|x a].
  - rewrite app_empty_l. auto.
  - rewrite app_cons. intros [= -> ->]. right. eauto.
Qed.

Lemma occurs_empty_inv (sep a b : string) :
  occurs sep "" a b -> a = "" /\ "" = sep +:+ b.
Proof.
  unfold occurs. intros H. symmetry in H.
  apply app_eq_empty in H as [-> H]. by rewrite H.
Qed.

Lemma occurs_here (sep r : string) : occurs sep (sep +:+ r) "" r.
Proof. done. Qed.

Lemma occurs_later (sep : string) (c : ascii) (s a b : string) :
  occurs sep s a b -> occurs sep (String c s) (String c a) b.
Proof. unfold occurs. intros ->. done. Qed.

Lemma str_in_true (sep s : string) :
  str_in sep s = true <-> exists a b, occurs sep s a b.
Proof.
  induction s as [|c s IH]; simpl.
  - destruct (after_prefix sep "") as [r|] eqn:E.
    + apply after_prefix_Some in E. split; [|done]. intros _.
      exists "", r. by rewrite E at 1.
    + split; [done|]. intros (a & b & H).
      apply occurs_empty_inv in H as [_ H].
      apply after_prefix_Some in H. congruence.
  - destruct (after_prefix sep (String c s)) as [r|] eqn:E.
    + apply after_prefix_Some in E. split; [|done]. intros _.
      exists "", r. by rewrite E at 1.
    + rewrite IH. split.
      * intros (a & b & H). eauto using occurs_later.
      * intros (a & b & H).
        apply occurs_cons_inv in H as [[-> H]|(a' & -> & H)]; [|eauto].
        apply after_prefix_Some in H. congruence.
Qed.

Lemma str_in_false (sep s : string) :
  str_in sep s = false <-> forall a b, ~ occurs sep s a b.
Proof.
  rewrite <- not_true_iff_false, str_in_true. split.
  - intros H a b Hab. apply H. eauto.
  - intros H (a & b & Hab). by apply (H a b).
Qed.

Lemma rfind_split_sound (sep s a b : string) :
  rfind_split sep s = Some (a, b) -> occurs sep s a b.
Proof.
  revert a. induction s as [|c s IH]; intros a; simpl.
  - destruct (after_prefix sep "") as [r|] eqn:E; [|done].
    intros [= <- <-]. by apply after_prefix_Some in E.
  - destruct (rfind_split sep s) as [[a0 b0]|].
    + intros [= <- <-]. by apply occurs_later, IH.
    + destruct (after_prefix sep (String c s)) as [r|] eqn:E; [|done].
      intros [= <- <-]. by apply after_prefix_Some in E.
Qed.

Lemma rfind_split_complete (sep s a b : string) :
  occurs sep s a b -> is_Some (rfind_split sep s).
Proof.
  revert a. induction s as [|c s IH]; intros a H; simpl.
  - apply occurs_empty_inv in H as [_ H].
    apply after_prefix_Some in H. by rewrite H.
  - apply occurs_cons_inv in H as [[-> H]|(a' & -> & H)].
    + destruct (rfind_split sep s) as [[a0 b0]|]; [done|].
      apply after_prefix_Some in H. by rewrite H.
    + destruct (IH _ H) as [[a0 b0] ->]. done.
Qed.

Lemma rfind_split_None (sep s : string) :
  rfind_split sep s = None <-> forall a b, ~ occurs sep s a b.
Proof.
  split.
  - intros H a b Hab. apply rfind_split_complete in Hab as [x Hx]. congruence.
  - intros H. destruct (rfind_split sep s) as [[a b]|] eqn:E; [|done].
    apply rfind_split_sound in E. by destruct (H a b).
Qed.

(** The occurrence [rfind_split] finds is the last one. *)
Lemma rfind_split_last (sep s a b a' b' : string) :
  rfind_split sep s = Some (a, b) -> occurs sep s a' b' ->
  String.length a' <= String.length a.
Proof.
  revert a a'. induction s as [|c s IH]; intros a a' E H.
  - apply occurs_empty_inv in H as [-> _]. simpl. lia.
  - simpl in E. apply occurs_cons_inv in H as [[-> H]|(a1 & -> & H)].
    { simpl. lia. }
    destruct (rfind_split sep s) as [[a0 b0]|] eqn:Es.
    + injection E as <- <-. simpl. specialize (IH _ _ eq_refl H). lia.
    + apply rfind_split_complete in H as [x Hx]. congruence.
Qed.

(** Two occurrences that start at the same place are the same. *)
Lemma occurs_same_start (sep s a b a' b' : string) :
  occurs sep s a b -> occurs sep s a' b' ->
  String.length a = String.length a' -> a = a' /\ b = b'.
Proof.
  unfold occurs. revert s a'. induction a as [|x a IH]; intros s a' -> H Hl.
  - destruct a'; [|done]. rewrite !app_empty_l in H.
    split; [done|]. by apply String.app_inj in H.
  - destruct a' as [|y a']; [done|]. rewrite !app_cons in H.
    injection H as -> H. injection Hl as Hl.
    destruct (IH _ a' eq_refl H Hl) as [-> ->]. done.
Qed.

(** [rfind_split] is the split at the last occurrence. *)
Lemma rfind_split_spec (sep s a b : string) :
  rfind_split sep s = Some (a, b) <->
  occurs sep s a b /\
  forall a' b', occurs sep s a' b' -> String.length a' <= String.length a.
Proof.
  split.
  - intros E. split; [by apply rfind_split_sound|].
    intros a' b' H. by apply (rfind_split_last sep s a b a' b').
  - intros [H Hlast].
    destruct (rfind_split_complete _ _ _ _ H) as [[a0 b0] E].
    pose proof (rfind_split_sound _ _ _ _ E) as H0.
    pose proof (rfind_split_last _ _ _ _ _ _ E H) as Hle.
    pose proof (Hlast _ _ H0) as Hge.
    destruct (occurs_same_start _ _ _ _ _ _ H H0) as [-> ->]; [lia|done].
Qed.

Lemma rpartition_found (s sep a b : string) :
  sep <> "" -> rfind_split sep s = Some (a, b) ->
  rpartition s sep = Ok (a, sep, b).
Proof.
  intros Hsep E. unfold rpartition. apply String.eqb_neq in Hsep.
  by rewrite Hsep, E.
Qed.

Lemma rpartition_not_found (s sep : string) :
  sep <> "" -> rfind_split sep s = None -> rpartition s sep = Ok ("", "", s).
Proof.
  intros Hsep E. unfold rpartition. apply String.eqb_neq in Hsep.
  by rewrite Hsep, E.
Qed.

(** ** Dictionaries *)

Lemma dict_nil : dict [] = ∅.
Proof. done. Qed.

Lemma dict_snoc (l : list (string * pyval)) (k : string) (v : pyval) :
  dict (l ++ [(k, v)]) = <[k := v]> (dict l).
Proof. unfold dict. by rewrite foldl_snoc. Qed.

(** Of two pairs under one key, [dict] keeps the later. *)
Lemma dict_lookup_app (l1 l2 : list (string * pyval)) (k : string) :
  dict (l1 ++ l2) !! k =
  match dict l2 !! k with
  | Some v => Some v
  | None => dict l1 !! k
  end.
Proof.
  induction l2 as [|[k2 v2] l2 IH] using rev_ind.
  - by rewrite app_nil_r, dict_nil, lookup_empty.
  - rewrite app_assoc, !dict_snoc.
    destruct (decide (k2 = k)) as [->|Hne].
    + by rewrite !lookup_insert_eq.
    + by rewrite !lookup_insert_ne.
Qed.

Lemma dict_lookup_cons (k0 : string) (v0 : pyval)
    (l : list (string * pyval)) (k : string) :
  dict ((k0, v0) :: l) !! k =
  match dict l !! k with
  | Some v => Some v
  | None => if decide (k0 = k) then Some v0 else None
  end.
Proof.
  change ((k0, v0) :: l) with ([(k0, v0)] ++ l). rewrite dict_lookup_app.
  destruct (dict l !! k); [done|].
  change [(k0, v0)] with ([] ++ [(k0, v0)]). rewrite dict_snoc, dict_nil.
  rewrite lookup_insert. by case_decide.
Qed.

(** ** Fallible computations *)

Lemma bind_Ok_inv {A B} (r : result A) (f : A -> result B) (b : B) :
  r ≫= f = Ok b -> exists a, r = Ok a /\ f a = Ok b.
Proof. destruct r as [a|e]; [eauto|done]. Qed.

Lemma fmap_Ok_inv {A B} (r : result A) (f : A -> B) (b : B) :
  f <$> r = Ok b -> exists a, r = Ok a /\ b = f a.
Proof. destruct r as [a|e]; [|done]. intros [= <-]. eauto. Qed.

Lemma bind_Ok {A B} (a : A) (f : A -> result B) : Ok a ≫= f = f a.
Proof. done. Qed.

Lemma bind_Raise {A B} (e : exc) (f : A -> result B) :
  Raise e ≫= f = Raise e.
Proof. done. Qed.

(** ** The specification builder *)

Lemma freeze_not_AttributeError (v : pyval) (e : exc) :
  freeze v = Raise e -> is_AttributeError e = false.
Proof.
  destruct v; simpl; try done; unfold tuple; simpl; try done.
  by intros [= <-].
Qed.

Lemma attr_field_freeze (f : pyfunc) (k : string) (y : list (string * pyval)) :
  attr_field f k freeze = Ok y ->
  match __dict__ f !! k with
  | None => y = []
  | Some v => exists t, freeze v = Ok t /\ y = [(k, t)]
  end.
Proof.
  unfold attr_field, getattr. destruct (__dict__ f !! k) as [v|]; simpl.
  - destruct (freeze v) as [t|e] eqn:E; simpl.
    + intros [= <-]. eauto.
    + by rewrite (freeze_not_AttributeError _ _ E).
  - by intros [= <-].
Qed.

Lemma attr_field_raw (f : pyfunc) (k : string) (y : list (string * pyval)) :
  attr_field f k Ok = Ok y ->
  y = match __dict__ f !! k with
      | None => []
      | Some v => [(k, v)]
      end.
Proof.
  unfold attr_field, getattr. destruct (__dict__ f !! k) as [v|]; simpl.
  - by intros [= <-].
  - by intros [= <-].
Qed.

Section BuilderFacts.
Variable dedent : string -> string.

Lemma rpartition_marker (body : string) (w sep x : string) :
  rpartition body marker = Ok (w, sep, x) -> split_body body = (w, x).
Proof.
  unfold rpartition, split_body. change (marker =? "")%string with false.
  cbv iota. destruct (rfind_split marker body) as [[a b]|]; congruence.
Qed.

Lemma lookup_field (k : string) (v : pyval) (k' : string) :
  dict [(k, v)] !! k' = if decide (k = k') then Some v else None.
Proof. by rewrite dict_lookup_cons, dict_nil, lookup_empty. Qed.

(** The anatomy of a built spec: every key, from the parts of the function. *)
Lemma spec_from_func_anatomy (f : pyfunc) (d : gmap string pyval) :
  spec_from_func dedent f = Ok d ->
  exists doc_line body,
    first_line (__doc__ f) = Ok doc_line /\
    dedented_body dedent f = Ok body /\
    d !! "name" = Some (py_or doc_line (PStr (__name__ f))) /\
    (forall k, k = "extras" \/ k = "deps" ->
       match __dict__ f !! k with
       | None => d !! k = None
       | Some v => exists t, freeze v = Ok t /\ d !! k = Some t
       end) /\
    d !! "control" = __dict__ f !! "control" /\
    d !! "warmup" =
      (if truthy (PStr (split_body body).1)
       then Some (PStr (split_body body).1) else None) /\
    d !! "exercise" = Some (PStr (split_body body).2).
Proof.
  unfold spec_from_func, spec_from_func_pairs, dedented_body. intros H.
  apply fmap_Ok_inv in H as (pairs & E & ->).
  apply bind_Ok_inv in E as (doc_line & Edoc & E).
  fold (attr_field f "extras" freeze) in E.
  fold (attr_field f "deps" freeze) in E.
  fold (attr_field f "control" Ok) in E.
  apply bind_Ok_inv in E as (ye & E0 & E). apply attr_field_freeze in E0.
  apply bind_Ok_inv in E as (yd & E1 & E). apply attr_field_freeze in E1.
  apply bind_Ok_inv in E as (yc & E2 & E). apply attr_field_raw in E2.
  apply bind_Ok_inv in E as (src & E3 & E). rewrite E3, bind_Ok.
  apply bind_Ok_inv in E as ([[h s] bi] & E4 & E). rewrite E4, bind_Ok.
  apply bind_Ok_inv in E as ([[w sep] x] & E5 & E).
  apply rpartition_marker in E5.
  injection E as <-. exists doc_line, (dedent bi). rewrite E5. cbn [fst snd].
  clear E3 E4 E5.
  assert (forall k, dict (ye ++ yd ++ yc) !! k =
    if decide (k = "control") then __dict__ f !! "control"
    else if decide (k = "deps") then dict yd !! k
    else if decide (k = "extras") then dict ye !! k else None) as Hattr.
  { intros k. rewrite !dict_lookup_app. subst yc.
    destruct (__dict__ f !! "deps") as [vd|];
      [destruct E1 as (td & _ & ->)|subst yd];
    (destruct (__dict__ f !! "extras") as [ve|];
      [destruct E0 as (te & _ & ->)|subst ye]);
    destruct (__dict__ f !! "control") as [vc|];
    rewrite ?lookup_field, ?dict_nil, ?lookup_empty;
    repeat case_decide; congruence. }
  set (yw := if truthy (PStr w) then [("warmup", PStr w)] else []).
  assert (forall k, dict (ye ++ yd ++ yc ++ yw ++ [("exercise", PStr x)]) !! k
    = if decide (k = "exercise") then Some (PStr x)
      else if decide (k = "warmup") then
             (if truthy (PStr w) then Some (PStr w) else None)
      else dict (ye ++ yd ++ yc) !! k) as Hall.
  { intros k.
    replace (ye ++ yd ++ yc ++ yw ++ [("exercise", PStr x)])
      with ((ye ++ yd ++ yc) ++ yw ++ [("exercise", PStr x)])
      by (by rewrite <- !app_assoc).
    rewrite (dict_lookup_app (ye ++ yd ++ yc)), (dict_lookup_app yw).
    rewrite lookup_field. subst yw.
    destruct (truthy (PStr w));
      rewrite ?lookup_field, ?dict_nil, ?lookup_empty;
      repeat case_decide; try congruence.
    rewrite Hattr. repeat case_decide; congruence. }
  assert (forall k, dict (("name", py_or doc_line (PStr (__name__ f)))
      :: ye ++ yd ++ yc ++ yw ++ [("exercise", PStr x)]) !! k =
    match dict (ye ++ yd ++ yc ++ yw ++ [("exercise", PStr x)]) !! k with
    | Some v => Some v
    | None => if decide ("name" = k)
              then Some (py_or doc_line (PStr (__name__ f))) else None
    end) as Hname by (intros k; apply dict_lookup_cons).
  change ([("name", py_or doc_line (PStr (__name__ f)))] ++ ye ++ yd ++ yc
          ++ yw ++ [("exercise", PStr x)])
    with (("name", py_or doc_line (PStr (__name__ f)))
          :: ye ++ yd ++ yc ++ yw ++ [("exercise", PStr x)]).
  split_and!; try done.
  - rewrite Hname, Hall, Hattr. by repeat (case_decide; try done).
  - intros k [->| ->].
    + destruct (__dict__ f !! "extras") as [ve|].
      * destruct E0 as (te & Hte & ->). exists te. split; [done|].
        rewrite Hname, Hall, Hattr, lookup_field.
        by repeat (case_decide; try done).
      * subst ye. rewrite Hname, Hall, Hattr, dict_nil, lookup_empty.
        by repeat (case_decide; try done).
    + destruct (__dict__ f !! "deps") as [vd|].
      * destruct E1 as (td & Htd & ->). exists td. split; [done|].
        rewrite Hname, Hall, Hattr, lookup_field.
        by repeat (case_decide; try done).
      * subst yd. rewrite Hname, Hall, Hattr, dict_nil, lookup_empty.
        by repeat (case_decide; try done).
  - rewrite Hname, Hall, Hattr. repeat (case_decide; try done).
    by destruct (__dict__ f !! "control").
  - rewrite Hname, Hall. repeat (case_decide; try done).
    by destruct (truthy (PStr w)).
  - rewrite Hname, Hall. by repeat (case_decide; try done).
Qed.
End BuilderFacts.

Lemma marker_nonempty : marker <> "".
Proof. done. Qed.

Lemma split_body_found (body a b : string) :
  rfind_split marker body = Some (a, b) -> split_body body = (a, b).
Proof. unfold split_body. by intros ->. Qed.

Lemma split_body_not_found (body : string) :
  str_in marker body = false -> split_body body = ("", body).
Proof.
  intros H. unfold split_body.
  assert (rfind_split marker body = None) as ->; [|done].
  apply rfind_split_None. by apply str_in_false.
Qed.

(** A text before some occurrence of the marker makes the text before the
    last occurrence non-empty. *)
Lemma split_body_preceded (body a b : string) :
  occurs marker body a b -> a <> "" ->
  exists w x, split_body body = (w, x) /\ w <> "" /\ occurs marker body w x.
Proof.
  intros H Ha.
  destruct (rfind_split_complete _ _ _ _ H) as [[w x] E].
  exists w, x. split; [by apply split_body_found|].
  split; [|by apply rfind_split_sound].
  pose proof (rfind_split_last _ _ _ _ _ _ E H) as Hle.
  destruct a; [done|]. destruct w; [simpl in Hle; lia|done].
Qed.

Lemma truthy_PStr (s : string) : truthy (PStr s) = true <-> s <> "".
Proof.
  simpl. rewrite negb_true_iff. apply String.eqb_neq.
Qed.

Lemma first_line_PStr (doc : string) :
  first_line (PStr doc) =
  Ok (match map strip (splitlines doc) with
      | l :: _ => PStr l
      | [] => PNone
      end).
Proof. done. Qed.

Lemma freeze_iterable (v : pyval) (items : list pyval) :
  iter_items v = Some items -> freeze v = Ok (PTuple items).
Proof. destruct v; try done; unfold freeze, pass_none, tuple; by intros ->. Qed.

Section BuilderClaims.
Variable dedent : string -> string.

(** The builder raises only on a documentation that is no text, on an
    [extras] or [deps] attribute that cannot be iterated, and on a function
    without retrievable source: otherwise a spec is built. *)
Lemma spec_from_func_builds (f : pyfunc) (src : string) :
  (__doc__ f = PNone \/ exists doc, __doc__ f = PStr doc) ->
  (forall k v, k = "extras" \/ k = "deps" -> __dict__ f !! k = Some v ->
     v = PNone \/ is_Some (iter_items v)) ->
  getsource f = Ok src ->
  exists d, spec_from_func dedent f = Ok d.
Proof.
  intros Hdoc Hattr Hsrc. unfold spec_from_func, spec_from_func_pairs.
  assert (exists n, first_line (__doc__ f) = Ok n) as [n ->].
  { destruct Hdoc as [->|[doc ->]]; [by exists PNone|].
    rewrite first_line_PStr. eauto. }
  rewrite bind_Ok.
  assert (forall k, k = "extras" \/ k = "deps" ->
    exists y, attr_field f k freeze = Ok y) as Hy.
  { intros k Hk. unfold attr_field, getattr.
    destruct (__dict__ f !! k) as [v|] eqn:E; [|by exists []].
    destruct (Hattr k v Hk E) as [->|[items Hi]]; [by eexists|].
    rewrite bind_Ok, (freeze_iterable _ _ Hi). by eexists. }
  destruct (Hy "extras") as [ye Hye]; [by left|].
  destruct (Hy "deps") as [yd Hyd]; [by right|].
  unfold attr_field in Hye, Hyd. rewrite Hye, bind_Ok, Hyd, bind_Ok.
  assert (exists yc, suppress is_AttributeError []
     (getattr f "control" ≫= λ v, Ok [("control", v)]) = Ok yc) as [yc ->].
  { unfold getattr. destruct (__dict__ f !! "control"); by eexists. }
  rewrite bind_Ok, Hsrc, bind_Ok.
  unfold partition, rpartition. cbn [String.eqb Ascii.eqb Bool.eqb].
  destruct (find_split _ src) as [[h bi]|]; rewrite bind_Ok;
    change (String.eqb "# end warmup" "") with false; cbv iota;
    destruct (rfind_split _ _) as [[w x]|]; by eexists.
Qed.

(** C2 (amended) -- the name of a built spec is the first line of the
    documentation text, stripped, when the function has documentation and
    that line is not blank; it is the bare identifier of the function when
    the function has no documentation, an empty one, or one whose first
    line is blank. *)
Theorem spec_name_first_line (f : pyfunc) (d : gmap string pyval) :
  spec_from_func dedent f = Ok d ->
  (forall doc, __doc__ f = PStr doc ->
     d !! "name" =
     Some (PStr (match map strip (splitlines doc) with
                 | l :: _ => if decide (l = "") then __name__ f else l
                 | [] => __name__ f
                 end))) /\
  (__doc__ f = PNone -> d !! "name" = Some (PStr (__name__ f))).
Proof.
  intros H.
  destruct (spec_from_func_anatomy dedent f d H)
    as (n & body & Hn & _ & Hname & _).
  rewrite Hname. split.
  - intros doc Hdoc. rewrite Hdoc, first_line_PStr in Hn. injection Hn as <-.
    destruct (map strip (splitlines doc)) as [|l ls]; [done|].
    unfold py_or. case_decide as Hl.
    + by rewrite Hl.
    + apply truthy_PStr in Hl. by rewrite Hl.
  - intros Hdoc. rewrite Hdoc in Hn. by injection Hn as <-.
Qed.

(** C4 (amended) -- when the dedented body holds the marker with some text
    before it, as it does when the marker stands on a line of its own below
    the first line, the built spec has a warmup and an exercise key, and
    warmup, marker and exercise put together are the dedented body. *)
Theorem marker_split_roundtrip (f : pyfunc) (d : gmap string pyval)
    (body a b : string) :
  spec_from_func dedent f = Ok d ->
  dedented_body dedent f = Ok body ->
  occurs marker body a b -> a <> "" ->
  exists warmup exercise,
    d !! "warmup" = Some (PStr warmup) /\
    d !! "exercise" = Some (PStr exercise) /\
    body = warmup +:+ marker +:+ exercise.
Proof.
  intros H Hbody Hocc Ha.
  destruct (spec_from_func_anatomy dedent f d H)
    as (n & body' & _ & Hbody' & _ & _ & _ & Hw & Hx).
  assert (body' = body) as -> by congruence.
  destruct (split_body_preceded body a b Hocc Ha) as (w & x & Hs & Hne & Ho).
  rewrite Hs in Hw, Hx. cbn [fst snd] in Hw, Hx.
  apply truthy_PStr in Hne. rewrite Hne in Hw. by exists w, x.
Qed.

(** C6 -- when the dedented body does not hold the marker, the built spec
    has no warmup key and its exercise is the whole dedented body. *)
Theorem no_marker_no_warmup (f : pyfunc) (d : gmap string pyval)
    (body : string) :
  spec_from_func dedent f = Ok d ->
  dedented_body dedent f = Ok body ->
  str_in marker body = false ->
  d !! "warmup" = None /\ d !! "exercise" = Some (PStr body).
Proof.
  intros H Hbody Hno.
  destruct (spec_from_func_anatomy dedent f d H)
    as (n & body' & _ & Hbody' & _ & _ & _ & Hw & Hx).
  assert (body' = body) as -> by congruence.
  by rewrite (split_body_not_found body Hno) in Hw, Hx.
Qed.

(** C7 (amended) -- a function without an [extras], [deps] or [control]
    attribute gives a spec without that key.  An [extras] or [deps]
    attribute that can be iterated gives the tuple of its items, in their
    order; one that is [None] gives the key with the value [None].  A
    [control] attribute gives the key with the value as it is. *)
Theorem optional_fields (f : pyfunc) (d : gmap string pyval) :
  spec_from_func dedent f = Ok d ->
  (forall k, k = "extras" \/ k = "deps" ->
     (__dict__ f !! k = None -> d !! k = None) /\
     (forall v items, __dict__ f !! k = Some v ->
        iter_items v = Some items -> d !! k = Some (PTuple items)) /\
     (__dict__ f !! k = Some PNone -> d !! k = Some PNone)) /\
  (__dict__ f !! "control" = None -> d !! "control" = None) /\
  (forall v, __dict__ f !! "control" = Some v -> d !! "control" = Some v).
Proof.
  intros H.
  destruct (spec_from_func_anatomy dedent f d H)
    as (n & body & _ & _ & _ & Hattr & Hc & _).
  split; [|rewrite Hc; split; [done|by intros v ->]].
  intros k Hk. specialize (Hattr k Hk).
  destruct (__dict__ f !! k) as [v|]; [|done].
  destruct Hattr as (t & Ht & ->). split; [done|]. split.
  - intros v' items [= <-] Hi. rewrite (freeze_iterable _ _ Hi) in Ht.
    by injection Ht as <-.
  - intros [= ->]. by injection Ht as <-.
Qed.

(** C9 -- a built spec has an exercise key, and when it has a warmup key
    the value is a non-empty text, the one before the marker in the
    dedented body. *)
Theorem exercise_always_warmup_nonempty (f : pyfunc) (d : gmap string pyval) :
  spec_from_func dedent f = Ok d ->
  (exists exercise, d !! "exercise" = Some (PStr exercise)) /\
  (forall v, d !! "warmup" = Some v ->
     exists body warmup exercise,
       dedented_body dedent f = Ok body /\
       v = PStr warmup /\ warmup <> "" /\
       d !! "exercise" = Some (PStr exercise) /\
       occurs marker body warmup exercise).
Proof.
  intros H.
  destruct (spec_from_func_anatomy dedent f d H)
    as (n & body & _ & Hbody & _ & _ & _ & Hw & Hx).
  split; [eauto|]. intros v Hv. rewrite Hv in Hw.
  destruct (truthy (PStr (split_body body).1)) eqn:Ht; [|done].
  injection Hw as ->. apply truthy_PStr in Ht.
  exists body, (split_body body).1, (split_body body).2.
  split_and!; try done.
  unfold split_body in *.
  destruct (rfind_split marker body) as [[w x]|] eqn:E; [|done].
  by apply rfind_split_sound.
Qed.

(** C10 (amended) -- the split is at the last occurrence of the marker
    text in the dedented body, wherever in a line it stands: the exercise is
    the text after that occurrence; the warmup is the text before it when
    that text is not empty, and when it is empty (the body opens with the
    marker) the spec has no warmup key. *)
Theorem split_at_last_marker (f : pyfunc) (d : gmap string pyval)
    (body a b : string) :
  spec_from_func dedent f = Ok d ->
  dedented_body dedent f = Ok body ->
  occurs marker body a b ->
  (forall a' b', occurs marker body a' b' ->
     String.length a' <= String.length a) ->
  rpartition body marker = Ok (a, marker, b) /\
  d !! "exercise" = Some (PStr b) /\
  d !! "warmup" = (if decide (a = "") then None else Some (PStr a)).
Proof.
  intros H Hbody Hocc Hlast.
  destruct (spec_from_func_anatomy dedent f d H)
    as (n & body' & _ & Hbody' & _ & _ & _ & Hw & Hx).
  assert (body' = body) as -> by congruence.
  assert (rfind_split marker body = Some (a, b)) as E
    by (by apply rfind_split_spec).
  rewrite (split_body_found _ _ _ E) in Hw, Hx. cbn [fst snd] in Hw, Hx.
  split; [by apply rpartition_found|]. split; [done|].
  rewrite Hw. case_decide as Ha.
  - by rewrite Ha.
  - apply truthy_PStr in Ha. by rewrite Ha.
Qed.
End BuilderClaims.

(** ** Lines *)

Lemma code_LF (c : ascii) : (code c =? 10)%nat = true -> c = "010"%char.
Proof.
  intros H. apply Nat.eqb_eq in H. unfold code in H.
  rewrite <- (ascii_nat_embedding c), H. reflexivity.
Qed.

Lemma join_lf_cons (l : string) (ls : list string) :
  ls <> [] -> join_lf (l :: ls) = l +:+ String "010" (join_lf ls).
Proof. by destruct ls. Qed.

Lemma split_lf_nonempty (s : string) : split_lf s <> [].
Proof.
  destruct s as [|c s]; simpl; [done|].
  destruct (code c =? 10)%nat; [done|]. by destruct (split_lf s).
Qed.

(** Joining the lines of a text gives the text back. *)
Lemma join_split_lf (s : string) : join_lf (split_lf s) = s.
Proof.
  induction s as [|c s IH]; [done|]. cbn [split_lf].
  destruct (code c =? 10)%nat eqn:Ec.
  - rewrite join_lf_cons by apply split_lf_nonempty.
    by rewrite IH, (code_LF c Ec).
  - pose proof (split_lf_nonempty s) as Hne.
    destruct (split_lf s) as [|l ls]; [done|].
    destruct ls as [|l' ls]; rewrite <- IH; reflexivity.
Qed.

(** A line is in the joined text, between what comes before it and what
    comes after. *)
Lemma join_lf_line (pre : list string) (m : string) (post : list string) :
  exists a b, join_lf (pre ++ m :: post) = a +:+ m +:+ b /\
              (pre <> [] -> a <> "").
Proof.
  induction pre as [|p pre (a & b & IH & _)]; cbn [app].
  - exists "". destruct post as [|q post].
    + exists "". by rewrite app_empty_r.
    + exists (String "010" (join_lf (q :: post))). by rewrite join_lf_cons.
  - exists (p +:+ String "010" a), b. split.
    + rewrite join_lf_cons by (by destruct pre). rewrite IH.
      rewrite !app_assoc_s. by rewrite app_cons.
    + intros _ H. apply app_eq_empty in H as [_ H]. done.
Qed.

(** The marker on a line of its own below the first line has text before
    it. *)
Lemma own_line_below_first (m body l0 : string) (pre post : list string) :
  split_lf body = l0 :: pre ++ m :: post ->
  exists a b, occurs m body a b /\ a <> "".
Proof.
  intros H. pose proof (join_split_lf body) as Hj. rewrite H in Hj.
  destruct (join_lf_line (l0 :: pre) m post) as (a & b & Hab & Ha).
  exists a, b. unfold occurs. split; [by rewrite <- Hj|]. by apply Ha.
Qed.

(** ** The builder on the sample functions *)

Lemma thing_perf_built :
  spec_from_func textwrap_dedent thing_perf = Ok thing_perf_spec.
Proof. vm_compute. reflexivity. Qed.

Lemma plain_perf_built :
  spec_from_func textwrap_dedent plain_perf = Ok plain_perf_spec.
Proof. vm_compute. reflexivity. Qed.

Lemma odd_perf_built :
  spec_from_func textwrap_dedent odd_perf = Ok odd_perf_spec.
Proof. vm_compute. reflexivity. Qed.

(** The name of [thing_perf] is the line of its documentation. *)
Lemma spec_name_first_line_witness :
  spec_from_func textwrap_dedent thing_perf = Ok thing_perf_spec /\
  __doc__ thing_perf = PStr "Widget timing" /\
  thing_perf_spec !! "name" = Some (PStr "Widget timing").
Proof.
  assert (spec_from_func textwrap_dedent thing_perf = Ok thing_perf_spec)
    as H by (vm_compute; reflexivity).
  split; [exact H|]. split; [reflexivity|].
  destruct (spec_name_first_line textwrap_dedent thing_perf thing_perf_spec H)
    as [Hdoc _].
  exact (Hdoc "Widget timing" eq_refl).
Defined.

(** C2, as the specification has it, fails: the documentation of
    [odd_perf] has a first non-blank line, and the name of the spec is the
    identifier of the function. *)
Lemma name_not_first_nonblank_line :
  ~ (forall (f : pyfunc) (d : gmap string pyval) (doc l : string),
       spec_from_func textwrap_dedent f = Ok d ->
       __doc__ f = PStr doc ->
       spec_first_nonblank_line doc = Some l ->
       d !! "name" = Some (PStr l)).
Proof.
  intros H.
  specialize (H odd_perf odd_perf_spec _ "Odd timing" odd_perf_built eq_refl).
  assert (odd_perf_spec !! "name" = Some (PStr "odd_perf")) as E
    by (vm_compute; reflexivity).
  rewrite E in H. discriminate H. vm_compute. reflexivity.
Qed.

(** The body of [thing_perf] is put together again from its spec. *)
Lemma marker_split_roundtrip_witness :
  exists warmup exercise,
    thing_perf_spec !! "warmup" = Some (PStr warmup) /\
    thing_perf_spec !! "exercise" = Some (PStr exercise) /\
    "setup()" +:+ LF +:+ "# end warmup" +:+ LF +:+ "measure()" +:+ LF
    = warmup +:+ marker +:+ exercise.
Proof.
  apply (marker_split_roundtrip textwrap_dedent thing_perf thing_perf_spec
           _ ("setup()" +:+ LF) (LF +:+ "measure()" +:+ LF)).
  - vm_compute. reflexivity.
  - vm_compute. reflexivity.
  - vm_compute. reflexivity.
  - discriminate.
Defined.

(** C4, as the specification has it, fails: the marker is the first line
    of the body of [odd_perf], and the spec has no warmup key. *)
Lemma marker_line_without_warmup :
  ~ (forall (f : pyfunc) (d : gmap string pyval) (body : string),
       spec_from_func textwrap_dedent f = Ok d ->
       dedented_body textwrap_dedent f = Ok body ->
       on_own_line marker body ->
       exists warmup exercise,
         d !! "warmup" = Some (PStr warmup) /\
         d !! "exercise" = Some (PStr exercise) /\
         body = warmup +:+ marker +:+ exercise).
Proof.
  intros H.
  destruct (H odd_perf odd_perf_spec _ odd_perf_built eq_refl)
    as (w & x & Hw & _).
  - unfold on_own_line. apply (bool_decide_unpack _). vm_compute. exact I.
  - assert (odd_perf_spec !! "warmup" = None) as E
      by (vm_compute; reflexivity).
    rewrite E in Hw. discriminate Hw.
Qed.

(** [plain_perf] has no marker: its spec has the body as exercise. *)
Lemma no_marker_no_warmup_witness :
  plain_perf_spec !! "warmup" = None /\
  plain_perf_spec !! "exercise" = Some (PStr ("measure()" +:+ LF)).
Proof.
  apply (no_marker_no_warmup textwrap_dedent plain_perf plain_perf_spec).
  - vm_compute. reflexivity.
  - vm_compute. reflexivity.
  - vm_compute. reflexivity.
Defined.

(** [thing_perf] has a [deps] attribute and no other. *)
Lemma optional_fields_witness :
  thing_perf_spec !! "extras" = None /\
  thing_perf_spec !! "deps" = Some (PTuple [PStr "lib"]) /\
  thing_perf_spec !! "control" = None.
Proof.
  assert (spec_from_func textwrap_dedent thing_perf = Ok thing_perf_spec)
    as H by (vm_compute; reflexivity).
  destruct (optional_fields textwrap_dedent thing_perf thing_perf_spec H)
    as (Hseq & Hnone & _).
  split; [|split].
  - apply (Hseq "extras"); [by left|]. vm_compute. reflexivity.
  - apply (Hseq "deps" (or_intror eq_refl)) with (v := PList [PStr "lib"]).
    + vm_compute. reflexivity.
    + reflexivity.
  - apply Hnone. vm_compute. reflexivity.
Defined.

(** C7, as the specification has it, fails: the [extras] attribute of
    [odd_perf] is there, and the value in the spec is no sequence. *)
Lemma extras_none_is_no_sequence :
  ~ (forall (f : pyfunc) (d : gmap string pyval) (v : pyval),
       spec_from_func textwrap_dedent f = Ok d ->
       __dict__ f !! "extras" = Some v ->
       exists items, d !! "extras" = Some (PTuple items)).
Proof.
  intros H.
  destruct (H odd_perf odd_perf_spec PNone odd_perf_built) as [items Hi].
  - vm_compute. reflexivity.
  - assert (odd_perf_spec !! "extras" = Some PNone) as E
      by (vm_compute; reflexivity).
    rewrite E in Hi. discriminate Hi.
Qed.

(** The keys of the spec of [thing_perf]. *)
Lemma exercise_always_warmup_nonempty_witness :
  (exists exercise, thing_perf_spec !! "exercise" = Some (PStr exercise)) /\
  (forall v, thing_perf_spec !! "warmup" = Some v ->
     exists body warmup exercise,
       dedented_body textwrap_dedent thing_perf = Ok body /\
       v = PStr warmup /\ warmup <> "" /\
       thing_perf_spec !! "exercise" = Some (PStr exercise) /\
       occurs marker body warmup exercise).
Proof.
  apply (exercise_always_warmup_nonempty textwrap_dedent thing_perf).
  vm_compute. reflexivity.
Defined.

(** The body of [twice_perf] is split at its second marker. *)
Lemma split_at_last_marker_witness :
  rpartition ("a()  # end warmup" +:+ LF +:+ "b()" +:+ LF +:+
              "# end warmup" +:+ LF +:+ "c()" +:+ LF) marker
  = Ok ("a()  # end warmup" +:+ LF +:+ "b()" +:+ LF, marker,
        LF +:+ "c()" +:+ LF) /\
  twice_perf_spec !! "exercise" = Some (PStr (LF +:+ "c()" +:+ LF)) /\
  twice_perf_spec !! "warmup" =
    (if decide ("a()  # end warmup" +:+ LF +:+ "b()" +:+ LF = "")
     then None
     else Some (PStr ("a()  # end warmup" +:+ LF +:+ "b()" +:+ LF))).
Proof.
  apply (split_at_last_marker textwrap_dedent twice_perf twice_perf_spec).
  - vm_compute. reflexivity.
  - vm_compute. reflexivity.
  - vm_compute. reflexivity.
  - intros a' b' H.
    apply (rfind_split_last marker
             ("a()  # end warmup" +:+ LF +:+ "b()" +:+ LF +:+
              "# end warmup" +:+ LF +:+ "c()" +:+ LF)
             ("a()  # end warmup" +:+ LF +:+ "b()" +:+ LF)
             (LF +:+ "c()" +:+ LF) a' b');
      [vm_compute; reflexivity | exact H].
Defined.

(** C10, as the specification has it, fails: the body of [early_perf] opens
    with the marker at the head of a longer line, the text before the
    marker is empty, and the spec has no warmup key. *)
Lemma marker_first_no_warmup :
  ~ (forall (f : pyfunc) (d : gmap string pyval) (body a b : string),
       spec_from_func textwrap_dedent f = Ok d ->
       dedented_body textwrap_dedent f = Ok body ->
       occurs marker body a b ->
       (forall a' b', occurs marker body a' b' ->
          String.length a' <= String.length a) ->
       d !! "exercise" = Some (PStr b) /\
       d !! "warmup" = Some (PStr a)).
Proof.
  intros H.
  destruct (H early_perf early_perf_spec
              ("# end warmup: nothing to set up" +:+ LF +:+
               "measure()" +:+ LF)
              "" (": nothing to set up" +:+ LF +:+ "measure()" +:+ LF))
    as [_ Hw].
  - vm_compute. reflexivity.
  - vm_compute. reflexivity.
  - vm_compute. reflexivity.
  - intros a' b' Hocc.
    apply (rfind_split_last marker
             ("# end warmup: nothing to set up" +:+ LF +:+
              "measure()" +:+ LF)
             "" (": nothing to set up" +:+ LF +:+ "measure()" +:+ LF)
             a' b');
      [vm_compute; reflexivity | exact Hocc].
  - assert (early_perf_spec !! "warmup" = None) as E
      by (vm_compute; reflexivity).
    rewrite E in Hw. discriminate Hw.
Qed.

(** ** The name test *)

Lemma last_char_snoc (s : string) (c : ascii) :
  last_char (s +:+ String c "") = Some c.
Proof. induction s as [|x s IH]; [done|]. rewrite app_cons. simpl. by rewrite IH. Qed.

Lemma last_char_Some (s : string) (c : ascii) :
  last_char s = Some c -> exists s', s = s' +:+ String c "".
Proof.
  revert c. induction s as [|x s IH]; intros c; simpl; [done|].
  destruct (last_char s) as [d|] eqn:E.
  - intros [= ->]. destruct (IH c eq_refl) as [s' ->]. by exists (String x s').
  - intros [= ->]. destruct s; [by exists ""|].
    simpl in E. by destruct (last_char s).
Qed.

Lemma prev_after_cons (prev : option ascii) (c : ascii) (a : string) :
  prev_after (Some c) a = prev_after prev (String c a).
Proof. unfold prev_after. simpl. by destruct (last_char a). Qed.

(** A search succeeds when a match starts at some position. *)
Lemma search_from_true (r : regex) (prev : option ascii) (s : string) :
  search_from r prev s = true <->
  exists a b, s = a +:+ b /\ rmatch r (prev_after prev a, b) <> [].
Proof.
  revert prev. induction s as [|c s IH]; intros prev; simpl.
  - destruct (rmatch r (prev, "")) eqn:E.
    + split; [done|]. intros (a & b & H & Hm). symmetry in H.
      apply app_eq_empty in H as [-> ->].
      change (prev_after prev "") with prev in Hm. by rewrite E in Hm.
    + split; [|done]. intros _. exists "", "". split; [done|].
      change (prev_after prev "") with prev. by rewrite E.
  - destruct (rmatch r (prev, String c s)) eqn:E.
    + rewrite IH. split.
      * intros (a & b & -> & Hm). exists (String c a), b.
        by rewrite <- prev_after_cons.
      * intros (a & b & H & Hm). destruct a as [|x a].
        -- rewrite app_empty_l in H. subst b.
           change (prev_after prev "") with prev in Hm. by rewrite E in Hm.
        -- rewrite app_cons in H. injection H as <- ->.
           exists a, b. by rewrite prev_after_cons with (prev := prev).
    + split; [|done]. intros _. exists "", (String c s). split; [done|].
      change (prev_after prev "") with prev. by rewrite E.
Qed.

(** A literal text matches where the subject goes on with it. *)
Lemma rmatch_lits (s : string) (prev : option ascii) (t : string) :
  rmatch (lits s) (prev, t) =
  match after_prefix s t with
  | Some rest => [(prev_after prev s, rest)]
  | None => []
  end.
Proof.
  revert prev t. induction s as [|c s IH]; intros prev t; [done|].
  cbn [lits rmatch after_prefix]. cbn [snd]. destruct t as [|d t]; [done|].
  destruct (Ascii.eqb_spec c d) as [->|Hne]; [|done].
  cbn [flat_map]. rewrite app_nil_r, IH, prev_after_cons with (prev := prev).
  done.
Qed.

(** What may follow "perf" in a match of the pattern. *)
Lemma rmatch_right_edge (prev : ascii) (t : string) :
  is_word prev = true ->
  rmatch (Alt WordBoundary (Lit "_")) (Some prev, t) <> [] <->
  edge_ok (next_char t) = true.
Proof.
  intros Hw. cbn [rmatch]. unfold at_boundary. cbn [fst snd is_word_at].
  rewrite Hw. destruct t as [|d t]; cbn [next_char is_word_at edge_ok].
  - done.
  - rewrite (Ascii.eqb_sym "_" d).
    destruct (is_word d), (Ascii.eqb d "_"); cbn; split; done.
Qed.

Lemma rmatch_perf_tail (prev : option ascii) (t : string) :
  rmatch (Cat (lits "perf") (Alt WordBoundary (Lit "_"))) (prev, t) <> []
  <-> perf_here t.
Proof.
  change (rmatch (Cat ?r1 ?r2) ?p) with (flat_map (rmatch r2) (rmatch r1 p)).
  rewrite rmatch_lits. unfold perf_here.
  destruct (after_prefix "perf" t) as [rest|] eqn:E.
  - apply after_prefix_Some in E. subst t.
    change (prev_after prev "perf") with (Some "f"%char).
    cbn [flat_map]. rewrite app_nil_r, rmatch_right_edge by done. split.
    + intros H. by exists rest.
    + intros (post & Hp & H). apply String.app_inj in Hp. by subst.
  - split; [done|]. intros (post & -> & _).
    by rewrite after_prefix_app in E.
Qed.

(** A match of the pattern at a position: "perf" is here and the position
    is no word boundary's wrong side, or an underscore and "perf" are
    here. *)
Lemma rmatch_perf_re (prev : option ascii) (t : string) :
  rmatch perf_re (prev, t) <> [] <->
  (is_word_at prev = false /\ perf_here t) \/
  (exists t', t = String "_" t' /\ perf_here t').
Proof.
  unfold perf_re.
  change (rmatch (Cat ?r1 ?r2) ?p) with (flat_map (rmatch r2) (rmatch r1 p)).
  set (R := Cat (lits "perf") (Alt WordBoundary (Lit "_"))).
  cbn [rmatch]. rewrite flat_map_app.
  assert (forall l1 l2 : list position, l1 ++ l2 <> [] <-> l1 <> [] \/ l2 <> [])
    as Happ.
  { intros [|x l1] l2; simpl.
    - split; [by right|]. by intros [H|H].
    - split; [by left|done]. }
  rewrite Happ. apply Morphisms_Prop.or_iff_morphism.
  - unfold at_boundary. cbn [fst snd]. split.
    + destruct (xorb _ _) eqn:Ex; [|done]. cbn [flat_map].
      rewrite app_nil_r. subst R. rewrite rmatch_perf_tail. intros Hp.
      split; [|done]. destruct Hp as (post & -> & _).
      change (next_char ("perf" +:+ post)) with (Some "p"%char) in Ex.
      change (is_word_at (Some "p"%char)) with true in Ex.
      by destruct (is_word_at prev).
    + intros [Hw Hp]. rewrite Hw. pose proof Hp as (post & -> & _).
      change (next_char ("perf" +:+ post)) with (Some "p"%char).
      change (is_word_at (Some "p"%char)) with true. cbn [xorb flat_map].
      rewrite app_nil_r. subst R. by apply rmatch_perf_tail.
  - cbn [snd]. destruct t as [|d t].
    + split; [done|]. by intros (t' & ? & _).
    + destruct (Ascii.eqb_spec "_" d) as [<-|Hne].
      * cbn [flat_map]. rewrite app_nil_r. subst R. rewrite rmatch_perf_tail.
        split; [by exists t|]. by intros (t' & [= <-] & H).
      * split; [done|]. by intros (t' & [= ? ?] & _).
Qed.

(** A name is eligible exactly when it holds "perf" with, on each side,
    the end of the name, a character that is no word character, or an
    underscore. *)
Lemma eligible_spec (name : string) :
  eligible name = true <->
  exists pre post,
    name = pre +:+ "perf" +:+ post /\
    edge_ok (last_char pre) = true /\ edge_ok (next_char post) = true.
Proof.
  unfold eligible, re_search. rewrite search_from_true. split.
  - intros (a & b & -> & Hm). apply rmatch_perf_re in Hm.
    destruct Hm as [[Hw (post & -> & Hp)]|(t' & -> & post & -> & Hp)].
    + exists a, post. split_and!; try done.
      unfold prev_after in Hw. destruct (last_char a) as [c|]; [|done].
      cbn in Hw |- *. by rewrite Hw.
    + exists (a +:+ "_"), post. split_and!; try done.
      * by rewrite app_assoc_s.
      * by rewrite last_char_snoc.
  - intros (pre & post & -> & Hl & Hr).
    destruct (last_char pre) as [c|] eqn:Ec.
    + destruct (is_word c) eqn:Hw.
      * cbn in Hl. rewrite Hw in Hl. cbn in Hl.
        apply Ascii.eqb_eq in Hl. subst c.
        apply last_char_Some in Ec as [pre' ->].
        exists pre', ("_perf" +:+ post). split; [by rewrite app_assoc_s|].
        apply rmatch_perf_re. right. exists ("perf" +:+ post).
        split; [done|]. by exists post.
      * exists pre, ("perf" +:+ post). split; [done|].
        apply rmatch_perf_re. left. unfold prev_after. rewrite Ec.
        split; [done|]. by exists post.
    + exists pre, ("perf" +:+ post). split; [done|].
      apply rmatch_perf_re. left. unfold prev_after. rewrite Ec.
      split; [done|]. by exists post.
Qed.

(** C1 (amended) -- a name passes the test of the pattern exactly when it
    holds "perf" with, on each side, the end of the name, a character that
    is no word character, or an underscore.  So "run_perf", "perf_test",
    "do_perf" and "perf" are eligible; "performance" is not, because the
    letter after "perf" makes no boundary on its right; and the test is
    sensitive to case. *)
Theorem perf_names_eligible :
  (forall name,
     eligible name = true <->
     exists pre post,
       name = pre +:+ "perf" +:+ post /\
       edge_ok (last_char pre) = true /\ edge_ok (next_char post) = true) /\
  eligible "run_perf" = true /\ eligible "perf_test" = true /\
  eligible "do_perf" = true /\ eligible "perf" = true /\
  eligible "performance" = false /\ eligible "run_PERF" = false.
Proof.
  split; [exact eligible_spec|]. vm_compute. by repeat split.
Qed.

(** C1, as the specification has it, fails on "performance". *)
Lemma performance_not_eligible :
  ~ (eligible "run_perf" = true /\ eligible "perf_test" = true /\
     eligible "do_perf" = true /\ eligible "perf" = true /\
     eligible "performance" = true).
Proof. vm_compute. intros (_ & _ & _ & _ & H). discriminate H. Qed.

(** ** The module loader *)

Section LoaderClaims.
Variable ModuleSpec : Type.
Variable find_spec : string -> result (option ModuleSpec).
Variable module_from_spec : ModuleSpec -> result module.
Variable exec_module : ModuleSpec -> module -> result module.

Local Abbreviation body :=
  (load_module_body ModuleSpec find_spec module_from_spec exec_module).
Local Abbreviation load :=
  (load_module ModuleSpec find_spec module_from_spec exec_module).
Local Abbreviation funcs :=
  (funcs_from_name ModuleSpec find_spec module_from_spec exec_module).

(** The body of the loader raises when the lookup, the creation or the
    execution of the module does, and when no module is found. *)
Lemma load_module_body_Raise (name : string) (e : exc) :
  body name = Raise e <->
  find_spec name = Raise e \/
  (find_spec name = Ok None /\ e = AttributeError) \/
  exists sp, find_spec name = Ok (Some sp) /\
    (module_from_spec sp = Raise e \/
     exists m, module_from_spec sp = Ok m /\ exec_module sp m = Raise e).
Proof.
  unfold load_module_body.
  destruct (find_spec name) as [[sp|]|e0]; simpl.
  - destruct (module_from_spec sp) as [m|e1] eqn:Em; simpl.
    + destruct (exec_module sp m) as [m'|e2] eqn:Ex; simpl.
      * split; [done|]. intros [|[[? _]|(sp' & [= <-] & [|(m0 & ? & ?)])]];
          congruence.
      * split.
        -- intros [= <-]. right. right. exists sp. split; [done|].
           right. by exists m.
        -- intros [|[[? _]|(sp' & [= <-] & [|(m0 & ? & ?)])]]; congruence.
    + split.
      * intros [= <-]. right. right. exists sp. split; [done|]. by left.
      * intros [|[[? _]|(sp' & [= <-] & [|(m0 & ? & ?)])]]; congruence.
  - split.
    + intros [= <-]. right. by left.
    + intros [|[[_ ->]|(sp' & ? & _)]]; congruence.
  - split.
    + intros [= <-]. by left.
    + intros [|[[? _]|(sp' & ? & _)]]; congruence.
Qed.

(** The loader gives the module when nothing is raised. *)
Lemma load_module_Ok (name : string) (m : option module) :
  body name = Ok m -> load name = Ok m.
Proof. unfold load_module. by intros ->. Qed.

(** An exception that is no [Exception] goes through the loader. *)
Lemma load_module_not_absorbed (name : string) (e : exc) :
  body name = Raise e -> is_Exception e = false -> load name = Raise e.
Proof. unfold load_module. intros -> He. simpl. by rewrite He. Qed.

Lemma none_has_no_eligible_name :
  filter (fun n => eligible n = true) (dir None) = [].
Proof. vm_compute. reflexivity. Qed.

(** C5 (amended) -- when the lookup, the creation or the execution of the
    module raises an exception that is an instance of [Exception], the
    loader absorbs it and returns [None], and the discoverer yields no
    function for a name that resolves to that module. *)
Theorem load_failure_absorbed (name mod_path sep rest : string) (e : exc) :
  rpartition name "." = Ok (mod_path, sep, rest) ->
  body (replace mod_path "/" ".") = Raise e ->
  is_Exception e = true ->
  load (replace mod_path "/" ".") = Ok None /\ funcs name = Ok [].
Proof.
  intros Hname Hbody He.
  assert (load (replace mod_path "/" ".") = Ok None) as Hload.
  { unfold load_module. rewrite Hbody. simpl. by rewrite He. }
  split; [done|]. unfold funcs_from_name.
  rewrite Hname, bind_Ok. cbv beta iota zeta.
  rewrite Hload, bind_Ok, none_has_no_eligible_name. done.
Qed.
End LoaderClaims.

(** A module that is not found gives no function. *)
Lemma load_failure_absorbed_witness :
  load_module unit find_nothing create_empty exec_fails "tests.perf_missing"
    = Ok None /\
  funcs_from_name unit find_nothing create_empty exec_fails
    "tests/perf_missing.py" = Ok [].
Proof.
  apply (load_failure_absorbed unit find_nothing create_empty exec_fails
           "tests/perf_missing.py" "tests/perf_missing" "." "py"
           AttributeError).
  - vm_compute. reflexivity.
  - vm_compute. reflexivity.
  - reflexivity.
Defined.

(** C5, as the specification has it, fails: a module that leaves through
    [sys.exit()] when it is executed takes the loader with it. *)
Lemma system_exit_not_absorbed :
  ~ (forall (ModuleSpec : Type)
       (find_spec : string -> result (option ModuleSpec))
       (module_from_spec : ModuleSpec -> result module)
       (exec_module : ModuleSpec -> module -> result module)
       (name : string) (e : exc),
       load_module_body ModuleSpec find_spec module_from_spec exec_module name
         = Raise e ->
       load_module ModuleSpec find_spec module_from_spec exec_module name
         = Ok None).
Proof.
  intros H.
  specialize (H unit find_any create_empty exec_exits "tests.perf_exit"
                SystemExit eq_refl).
  vm_compute in H. discriminate H.
Qed.

(** ** The runner factory *)

Lemma keys_filter (k : kwargs) (l : list (kwargs * Runner)) :
  (filter (fun e => e.1 <> k) l).*1 = filter (fun k' => k' <> k) (l.*1).
Proof.
  induction l as [|e l IH]; [done|].
  rewrite fmap_cons, !filter_cons. cbn [fst].
  destruct (decide (e.1 <> k)); by rewrite ?fmap_cons, IH.
Qed.

Lemma find_key_None (k : kwargs) (l : list (kwargs * Runner)) :
  find (fun e => bool_decide (e.1 = k)) l = None -> k ∉ l.*1.
Proof.
  induction l as [|e l IH]; simpl.
  - intros _. apply not_elem_of_nil.
  - case_bool_decide as He; [done|]. intros H.
    apply not_elem_of_cons. split; [congruence|by apply IH].
Qed.

Lemma find_key_first (k : kwargs) (r : Runner)
    (pre post : list (kwargs * Runner)) :
  k ∉ pre.*1 ->
  find (fun e => bool_decide (e.1 = k)) (pre ++ (k, r) :: post) = Some (k, r).
Proof.
  induction pre as [|e pre IH]; simpl; intros H.
  - by rewrite bool_decide_true.
  - apply not_elem_of_cons in H as [Hne H].
    rewrite bool_decide_false by congruence. by apply IH.
Qed.

Lemma find_key_Some (k : kwargs) (l : list (kwargs * Runner))
    (k' : kwargs) (r : Runner) :
  find (fun e => bool_decide (e.1 = k)) l = Some (k', r) -> k' = k.
Proof.
  induction l as [|e l IH]; simpl; [done|].
  case_bool_decide as He; [|done]. by intros [= ->].
Qed.

(** A list without duplicates is no longer than the distinct elements of a
    list that holds its elements. *)
Lemma NoDup_length_le_distinct (l all : list kwargs) :
  NoDup l -> (forall k, k ∈ l -> k ∈ all) ->
  length l <= length (remove_dups all).
Proof.
  intros Hnd Hsub. apply submseteq_length, NoDup_submseteq; [done|].
  intros k Hk. apply elem_of_remove_dups. by apply Hsub.
Qed.

Section CacheClaims.
Variable Runner_init : kwargs -> result unit.

Local Abbreviation factory := (runner_factory Runner_init).


Lemma factory_unhashable (kw : kwargs) (w : world) :
  forallb (fun kv => hashable kv.2) kw = false ->
  factory kw w = (Raise TypeError, w).
Proof. unfold runner_factory. by intros ->. Qed.

Lemma factory_Ok_hashable (kw : kwargs) (w w' : world) (r : Runner) :
  factory kw w = (Ok r, w') -> forallb (fun kv => hashable kv.2) kw = true.
Proof.
  unfold runner_factory.
  destruct (forallb (fun kv => hashable kv.2) kw); [done|]. simpl. congruence.
Qed.

(** A hit: the cached instance is returned and its entry moves to the
    front. *)
Lemma factory_hit (kw : kwargs) (w : world) (k' : kwargs) (r : Runner) :
  forallb (fun kv => hashable kv.2) kw = true ->
  find (fun e => bool_decide (e.1 = kw)) (cache w) = Some (k', r) ->
  factory kw w =
  (Ok r, set_cache ((kw, r) :: filter (fun e => e.1 <> kw) (cache w)) w).
Proof. unfold runner_factory. by intros -> ->. Qed.

(** After a call that returns, the entry of the arguments is at the front
    of the cache. *)
Lemma factory_Ok_front (kw : kwargs) (w w' : world) (r : Runner) :
  factory kw w = (Ok r, w') -> exists rest, cache w' = (kw, r) :: rest.
Proof.
  unfold runner_factory.
  destruct (forallb (fun kv => hashable kv.2) kw); simpl; [|done].
  destruct (find _ (cache w)) as [[k' r']|].
  - intros [= <- <-]. by eexists.
  - unfold BenchmarkRunner. destruct (Runner_init kw); [|done].
    intros [= <- <-]. by eexists.
Qed.

(** One more call keeps the entry of [kw] in the cache, as long as the
    entries in front of it have room. *)
Lemma factory_retains (kw : kwargs) (r : Runner) (others : list kwargs)
    (k : kwargs) (w : world) :
  length (remove_dups (filter (fun k' => k' <> kw) others)) < maxsize ->
  k ∈ others ->
  retained kw r (filter (fun k' => k' <> kw) others) (cache w) ->
  retained kw r (filter (fun k' => k' <> kw) others) (cache (factory k w).2).
Proof.
  intros Hroom Hk (pre & post & Hc & Hkw & Hnd & Hsub).
  unfold runner_factory.
  destruct (forallb (fun kv => hashable kv.2) k); simpl;
    [|by exists pre, post].
  destruct (find _ (cache w)) as [[k' r']|] eqn:Ef.
  - (* hit *)
    pose proof (find_key_Some _ _ _ _ Ef) as ->. cbn [snd set_cache cache].
    destruct (decide (k = kw)) as [->|Hne].
    + rewrite Hc, find_key_first in Ef by done. injection Ef as <-.
      exists [], (filter (fun e => e.1 <> kw) (cache w)).
      split_and!; try done.
      * apply not_elem_of_nil.
      * apply NoDup_nil_2.
      * intros k0 H0. by apply elem_of_nil in H0.
    + exists ((k, r') :: filter (fun e => e.1 <> k) pre),
             (filter (fun e => e.1 <> k) post).
      split_and!.
      * rewrite Hc, filter_app, filter_cons_True by (cbn; congruence). done.
      * rewrite fmap_cons, keys_filter. cbn [fst].
        apply not_elem_of_cons. split; [congruence|].
        rewrite list_elem_of_filter. tauto.
      * rewrite fmap_cons, keys_filter. cbn [fst]. apply NoDup_cons. split.
        -- rewrite list_elem_of_filter. tauto.
        -- by apply NoDup_filter.
      * intros k0. rewrite fmap_cons, keys_filter. cbn [fst].
        rewrite elem_of_cons, !list_elem_of_filter.
        intros [->|[_ H0]]; [done|].
        exact (proj1 (list_elem_of_filter _ _ _) (Hsub _ H0)).
  - (* miss *)
    apply find_key_None in Ef.
    assert (k <> kw) as Hne.
    { intros ->. apply Ef. rewrite Hc, fmap_app, fmap_cons.
      apply elem_of_app. right. apply list_elem_of_here. }
    assert (k ∉ pre.*1) as Hkpre.
    { intros H. apply Ef. rewrite Hc, fmap_app. apply elem_of_app. by left. }
    unfold BenchmarkRunner. destruct (Runner_init k); cbn [snd cache set_cache];
      [|by exists pre, post].
    assert (retained kw r (filter (fun k' => k' <> kw) others)
              ((k, {| runner_id := next_id w; runner_kwargs := k |}) :: pre
               ++ (kw, r) :: (if (length (cache w) <? maxsize)%nat
                              then post else removelast post))) as Hret.
    { exists ((k, {| runner_id := next_id w; runner_kwargs := k |}) :: pre).
      eexists. split; [done|]. rewrite fmap_cons. cbn [fst]. split_and!.
      - apply not_elem_of_cons. split; [congruence|done].
      - by apply NoDup_cons.
      - intros k0. rewrite elem_of_cons. intros [->|H0]; [|by apply Hsub].
        by apply list_elem_of_filter. }
    destruct (length (cache w) <? maxsize)%nat eqn:El.
    + by rewrite Hc.
    + destruct post as [|p post].
      * exfalso. apply Nat.ltb_ge in El.
        rewrite Hc, length_app in El. cbn [length] in El.
        assert (length ((k :: pre.*1)) <=
                length (remove_dups (filter (fun k' => k' <> kw) others)))
          as Hle.
        { apply NoDup_length_le_distinct; [by apply NoDup_cons|].
          intros k0. rewrite elem_of_cons. intros [->|H0]; [|by apply Hsub].
          by apply list_elem_of_filter. }
        cbn [length] in Hle. rewrite length_fmap in Hle. lia.
      * rewrite Hc. rewrite removelast_app by done. exact Hret.
Qed.

Lemma run_calls_retains (kw : kwargs) (r : Runner) (others calls : list kwargs)
    (w : world) :
  length (remove_dups (filter (fun k' => k' <> kw) others)) < maxsize ->
  (forall k, k ∈ calls -> k ∈ others) ->
  retained kw r (filter (fun k' => k' <> kw) others) (cache w) ->
  retained kw r (filter (fun k' => k' <> kw) others)
    (cache (run_calls Runner_init calls w)).
Proof.
  intros Hroom. revert w. induction calls as [|k calls IH]; intros w Hin Hr.
  - done.
  - cbn [run_calls foldl]. apply IH.
    + intros k0 H0. apply Hin. by apply elem_of_cons; right.
    + apply factory_retains; [done| |done]. apply Hin, list_elem_of_here.
Qed.

(** C3 (amended) -- when a call of the factory has returned a runner, a
    later call with the same keyword arguments in the same order returns
    that very runner, provided that no clear came between and that the
    calls between asked for fewer than 128 other distinct argument sets,
    the size of the cache. *)
Theorem same_arguments_same_runner (kw : kwargs) (w0 w1 : world) (r : Runner)
    (calls : list kwargs) :
  factory kw w0 = (Ok r, w1) ->
  length (remove_dups (filter (fun k => k <> kw) calls)) < maxsize ->
  (factory kw (run_calls Runner_init calls w1)).1 = Ok r.
Proof.
  intros Hfirst Hroom.
  pose proof (factory_Ok_hashable _ _ _ _ Hfirst) as Hh.
  destruct (factory_Ok_front _ _ _ _ Hfirst) as [rest Hc].
  assert (retained kw r (filter (fun k => k <> kw) calls) (cache w1)) as Hr.
  { exists [], rest. split_and!; try done.
    - apply not_elem_of_nil.
    - apply NoDup_nil_2.
    - intros k H. by apply elem_of_nil in H. }
  apply (run_calls_retains kw r calls calls w1 Hroom) in Hr; [|done].
  destruct Hr as (pre & post & Hc' & Hkw & _).
  erewrite factory_hit; [done|done|].
  rewrite Hc'. by apply find_key_first.
Qed.
End CacheClaims.

(** After 127 other argument sets the first runner is still the one
    returned. *)
Lemma same_arguments_same_runner_witness :
  (runner_factory always_ok (sample_kwargs 0)
     (run_calls always_ok (map sample_kwargs (seq 1 127))
        (runner_factory always_ok (sample_kwargs 0) initial_world).2)).1
  = Ok {| runner_id := 0; runner_kwargs := sample_kwargs 0 |}.
Proof.
  apply (same_arguments_same_runner always_ok (sample_kwargs 0) initial_world
           (runner_factory always_ok (sample_kwargs 0) initial_world).2).
  - vm_compute. reflexivity.
  - vm_compute. lia.
Defined.

(** C3, as the specification has it, fails: after 128 other argument sets
    the first runner has left the cache, and the same arguments give a new
    runner. *)
Lemma evicted_runner_is_rebuilt :
  ~ (forall (Runner_init : kwargs -> result unit) (kw : kwargs)
       (w0 w1 : world) (r : Runner) (calls : list kwargs),
       runner_factory Runner_init kw w0 = (Ok r, w1) ->
       (runner_factory Runner_init kw (run_calls Runner_init calls w1)).1
       = Ok r).
Proof.
  intros H.
  specialize (H always_ok (sample_kwargs 0) initial_world _ _
                (map sample_kwargs (seq 1 128)) eq_refl).
  vm_compute in H. discriminate H.
Qed.

(** The arguments [assign_params] passes depend on the spec only through
    the parameters of the constructor, and come in their order: two specs
    that agree on them ask the factory for the same runner. *)
Lemma assign_params_ext (params : list string) (s1 s2 : gmap string pyval) :
  (forall k, k ∈ params -> s1 !! k = s2 !! k) ->
  assign_params params s1 = assign_params params s2.
Proof.
  unfold assign_params. induction params as [|p params IH]; intros H; [done|].
  cbn [omap list_omap]. rewrite (H p) by apply list_elem_of_here.
  rewrite IH; [done|]. intros k Hk. apply H. by apply elem_of_cons; right.
Qed.

(** After a clear the factory builds a new runner. *)
Lemma factory_after_clear (Runner_init : kwargs -> result unit)
    (kw : kwargs) (w : world) (r : Runner) (w' : world) :
  runner_factory Runner_init kw (cache_clear w) = (Ok r, w') ->
  runner_id r = next_id w.
Proof.
  unfold runner_factory, cache_clear, set_cache. cbn [cache find].
  destruct (forallb _ kw); simpl; [|done].
  unfold BenchmarkRunner. cbn [next_id]. destruct (Runner_init kw); [|done].
  by intros [= <- _].
Qed.

(** The factory leaves the registry of the experiments alone. *)
Lemma runner_factory_instances (Runner_init : kwargs -> result unit)
    (kw : kwargs) (w : world) :
  _instances (runner_factory Runner_init kw w).2 = _instances w.
Proof.
  unfold runner_factory, BenchmarkRunner.
  destruct (forallb _ kw); simpl; [|done].
  destruct (find _ (cache w)) as [[k r]|]; [done|].
  by destruct (Runner_init kw).
Qed.

(** ** The experiments *)

Section ExperimentClaims.
Variable Runner_params : list string.
Variable Runner_init : kwargs -> result unit.
Variable Command_params : list string.
Variable Command_init : kwargs -> result unit.
Variable Runner_run : Runner -> Command -> result pyval.

Local Abbreviation init := (Experiment_init Command_params Command_init).
Local Abbreviation run :=
  (runtest Runner_params Runner_init Runner_run).
Local Abbreviation run_at :=
  (runtest_instance Runner_params Runner_init Runner_run).

Lemma runtest_Ok (self self' : Experiment) (w w' : world) :
  run self w = (Ok self', w') ->
  exists r v,
    (runner Runner_params Runner_init self w).1 = Ok r /\
    Runner_run r (command self) = Ok v /\
    self' = {| name := name self; spec := spec self;
               command := command self; results := Some v |}.
Proof.
  unfold runtest.
  destruct (runner Runner_params Runner_init self w) as [[r|e] w1]; [|done].
  destruct (Runner_run r (command self)) as [v|e] eqn:Ev; [|done].
  intros [= <- <-]. by exists r, v.
Qed.

(** C8 -- an experiment is false when it is built and as long as no run of
    it has completed, and true as soon as one has, whatever the runner
    returned: its truth value says that [results] has been set, and
    nothing about the value. *)
Theorem experiment_bool_is_results_set :
  (forall nm sp w self w',
     init nm sp w = (Ok self, w') -> Experiment_bool self = false) /\
  (forall self w self' w',
     run self w = (Ok self', w') ->
     Experiment_bool self' = true /\
     exists r v, Runner_run r (command self) = Ok v /\
                 results self' = Some v) /\
  (forall self, Experiment_bool self = true <-> is_Some (results self)).
Proof.
  split_and!.
  - intros nm sp w self w'. unfold Experiment_init.
    destruct (Command_init _); [|done]. by intros [= <- _].
  - intros self w self' w' H.
    apply runtest_Ok in H as (r & v & _ & Hv & ->). split; [done|].
    by exists r, v.
  - intros self. unfold Experiment_bool. destruct (results self).
    + split; [by eexists|done].
    + split; [done|]. by intros [? ?].
Qed.

(** The registry holds the experiment itself: after a completed run of
    its [i]-th experiment, that experiment is true there, and
    [pytest_terminal_summary] reports it. *)
Lemma runtest_instance_reported (i : nat) (w w' : world) :
  run_at i w = Some (Ok tt, w') ->
  exists self, _instances w' !! i = Some self /\
               Experiment_bool self = true /\ self ∈ reported w'.
Proof.
  unfold runtest_instance.
  destruct (_instances w !! i) as [self|] eqn:Ei; [|done]. cbn.
  destruct (run self w) as [[self'|e] w1] eqn:Er; [|done].
  intros [= <-].
  assert (_instances w1 = _instances w) as Hi.
  { revert Er. unfold runtest, runner.
    pose proof (runner_factory_instances Runner_init
                  (assign_params Runner_params (spec self)) w) as Hf.
    destruct (runner_factory _ _ w) as [[r|e] w2]; [|done].
    destruct (Runner_run r (command self)); [|done].
    by intros [= _ <-]. }
  apply runtest_Ok in Er as (r & v & _ & _ & ->).
  assert (i < length (_instances w1)) as Hlt
    by (rewrite Hi; by apply lookup_lt_Some in Ei).
  exists {| name := name self; spec := spec self;
            command := command self; results := Some v |}.
  unfold reported. simpl. split_and!.
  - by apply list_lookup_insert_eq.
  - done.
  - apply list_elem_of_filter. split; [done|].
    apply list_elem_of_lookup. exists i. by apply list_lookup_insert_eq.
Qed.
End ExperimentClaims.

(** An experiment whose run returns an empty list is true after it. *)
Lemma experiment_bool_is_results_set_witness :
  Experiment_bool sample_experiment = false /\
  Experiment_bool sample_experiment_ran = true /\
  results sample_experiment_ran = Some (PList []) /\
  truthy (PList []) = false.
Proof.
  destruct (experiment_bool_is_results_set ["target"; "baseline"] always_ok
              ["exercise"; "warmup"] always_ok run_empty)
    as (Hnew & Hran & _).
  split; [|split; [|split; reflexivity]].
  - apply (Hnew "perf_widget.py:Widget timing" sample_spec initial_world
             sample_experiment sample_world).
    vm_compute. reflexivity.
  - apply (Hran sample_experiment sample_world
             sample_experiment_ran sample_world_ran).
    vm_compute. reflexivity.
Defined.

(** * Further properties of the plugin *)

(** ** Text: lines, stripping, first occurrences *)

Lemma string_forall_app (P : ascii -> bool) (a b : string) :
  string_forall P (a +:+ b) = string_forall P a && string_forall P b.
Proof.
  induction a as [|c a IH]; [done|]. rewrite app_cons. simpl.
  by rewrite IH, andb_assoc.
Qed.

Lemma splitlines_cons (c : ascii) (s : string) :
  splitlines (String c s) =
  if is_linebreak c then
    "" :: match s with
          | String d s' =>
              if ((code c =? 13) && (code d =? 10))%nat then splitlines s'
              else splitlines s
          | "" => []
          end
  else match splitlines s with
       | [] => [String c ""]
       | l :: ls => String c l :: ls
       end.
Proof. done. Qed.

(** No line of [splitlines] holds a line boundary. *)
Lemma splitlines_single_line (s : string) :
  Forall (fun l => single_line l = true) (splitlines s).
Proof.
  enough (Forall (fun l => single_line l = true) (splitlines s) /\
          forall c, Forall (fun l => single_line l = true)
                      (splitlines (String c s))) as [H _] by done.
  assert (forall c, is_linebreak c = false ->
            forall l, single_line l = true -> single_line (String c l) = true)
    as Hcons.
  { intros c Ec l Hl. unfold single_line in *. cbn [string_forall].
    by rewrite Ec, Hl. }
  induction s as [|d s [IH1 IH2]].
  - split; [constructor|]. intros c. rewrite splitlines_cons.
    destruct (is_linebreak c) eqn:Ec.
    + by repeat constructor.
    + constructor; [by apply Hcons|constructor].
  - split; [apply IH2|]. intros c. rewrite splitlines_cons.
    destruct (is_linebreak c) eqn:Ec.
    + constructor; [done|]. destruct (_ && _); [done|apply IH2].
    + specialize (IH2 d). destruct (splitlines (String d s)) as [|l ls].
      * constructor; [by apply Hcons|constructor].
      * inversion IH2 as [|? ? Hl Hls]; subst. constructor; [|done].
        by apply Hcons.
Qed.

Lemma lstrip_forall (P : ascii -> bool) (s : string) :
  string_forall P s = true -> string_forall P (lstrip s) = true.
Proof.
  induction s as [|c s IH]; [done|]. simpl.
  intros [Hc Hs]%andb_true_iff. destruct (isspace c); [by apply IH|].
  simpl. by rewrite Hc, Hs.
Qed.

Lemma rstrip_forall (P : ascii -> bool) (s : string) :
  string_forall P s = true -> string_forall P (rstrip s) = true.
Proof.
  induction s as [|c s IH]; [done|]. simpl.
  intros [Hc Hs]%andb_true_iff. specialize (IH Hs).
  destruct (rstrip s) as [|d r].
  - destruct (isspace c); [done|]. simpl. by rewrite Hc.
  - simpl in *. by rewrite Hc, IH.
Qed.

Lemma lstrip_first (s : string) : is_space_at (next_char (lstrip s)) = false.
Proof.
  induction s as [|c s IH]; [done|]. simpl.
  destruct (isspace c) eqn:Ec; [done|]. simpl. done.
Qed.

Lemma rstrip_first (s : string) :
  rstrip s <> "" -> next_char (rstrip s) = next_char s.
Proof.
  destruct s as [|c s]; [done|]. simpl.
  destruct (rstrip s); [|done]. by destruct (isspace c).
Qed.

Lemma rstrip_last (s : string) : is_space_at (last_char (rstrip s)) = false.
Proof.
  induction s as [|c s IH]; [done|]. simpl.
  destruct (rstrip s) as [|d r] eqn:Er.
  - destruct (isspace c) eqn:Ec; [done|]. simpl. done.
  - change (last_char (String c (String d r)))
      with (match last_char (String d r) with
            | None => Some c
            | Some x => Some x
            end).
    destruct (last_char (String d r)) eqn:El; [done|].
    simpl in El. by destruct (last_char r).
Qed.

(** A stripped text neither begins nor ends with whitespace. *)
Lemma strip_trimmed (s : string) : trimmed (strip s) = true.
Proof.
  unfold trimmed, strip. rewrite rstrip_last, andb_true_r.
  destruct (rstrip (lstrip s)) as [|c r] eqn:E; [done|].
  rewrite <- E, rstrip_first by (by rewrite E). by rewrite lstrip_first.
Qed.

Lemma strip_single_line (s : string) :
  single_line s = true -> single_line (strip s) = true.
Proof. intros H. by apply rstrip_forall, lstrip_forall. Qed.

Lemma find_split_sound (sep s a b : string) :
  find_split sep s = Some (a, b) -> occurs sep s a b.
Proof.
  revert a. induction s as [|c s IH]; intros a; simpl.
  - destruct (after_prefix sep "") as [r|] eqn:E; [|done].
    intros [= <- <-]. by apply after_prefix_Some in E.
  - destruct (after_prefix sep (String c s)) as [r|] eqn:E.
    + intros [= <- <-]. by apply after_prefix_Some in E.
    + destruct (find_split sep s) as [[a0 b0]|]; [|done].
      intros [= <- <-]. by apply occurs_later, IH.
Qed.

Lemma find_split_complete (sep s a b : string) :
  occurs sep s a b -> is_Some (find_split sep s).
Proof.
  revert a. induction s as [|c s IH]; intros a H; simpl.
  - apply occurs_empty_inv in H as [_ H].
    apply after_prefix_Some in H. by rewrite H.
  - destruct (after_prefix sep (String c s)) as [r|] eqn:E; [done|].
    apply occurs_cons_inv in H as [[-> H]|(a' & -> & H)].
    + apply after_prefix_Some in H. congruence.
    + destruct (IH _ H) as [[a0 b0] ->]. done.
Qed.

(** The occurrence [find_split] finds is the first one. *)
Lemma find_split_first (sep s a b a' b' : string) :
  find_split sep s = Some (a, b) -> occurs sep s a' b' ->
  String.length a <= String.length a'.
Proof.
  revert a a'. induction s as [|c s IH]; intros a a' E H; simpl in E.
  - destruct (after_prefix sep ""); [|done]. injection E as <- <-.
    simpl. lia.
  - destruct (after_prefix sep (String c s)) as [r|] eqn:Ep.
    { injection E as <- <-. simpl. lia. }
    destruct (find_split sep s) as [[a0 b0]|] eqn:Es; [|done].
    injection E as <- <-.
    apply occurs_cons_inv in H as [[-> H]|(a1 & -> & H)].
    + apply after_prefix_Some in H. congruence.
    + simpl. specialize (IH _ _ eq_refl H). lia.
Qed.

Lemma find_split_spec (sep s a b : string) :
  find_split sep s = Some (a, b) <->
  occurs sep s a b /\
  forall a' b', occurs sep s a' b' -> String.length a <= String.length a'.
Proof.
  split.
  - intros E. split; [by apply find_split_sound|].
    intros a' b' H. by apply (find_split_first sep s a b a' b').
  - intros [H Hfirst].
    destruct (find_split_complete _ _ _ _ H) as [[a0 b0] E].
    pose proof (find_split_sound _ _ _ _ E) as H0.
    pose proof (find_split_first _ _ _ _ _ _ E H) as Hle.
    pose proof (Hfirst _ _ H0) as Hge.
    destruct (occurs_same_start _ _ _ _ _ _ H H0) as [-> ->]; [lia|done].
Qed.

Lemma find_split_None (sep s : string) :
  str_in sep s = false -> find_split sep s = None.
Proof.
  intros H. destruct (find_split sep s) as [[a b]|] eqn:E; [|done].
  apply find_split_sound in E. rewrite str_in_false in H. by destruct (H a b).
Qed.

(** After the last occurrence of a text there is no occurrence of it. *)
Lemma rfind_split_rest (sep s a b : string) :
  sep <> "" -> rfind_split sep s = Some (a, b) -> str_in sep b = false.
Proof.
  intros Hsep E. apply str_in_false. intros a' b' H.
  pose proof (rfind_split_sound _ _ _ _ E) as Hs.
  assert (occurs sep s (a +:+ sep +:+ a') b') as Ho.
  { unfold occurs in *. by rewrite Hs, H, !app_assoc_s. }
  pose proof (rfind_split_last _ _ _ _ _ _ E Ho) as Hle.
  rewrite !length_app_s in Hle. destruct sep; [done|]. simpl in Hle. lia.
Qed.



(** ** The specification builder: keys, name, errors *)

Lemma dict_lookup_Some_key (l : list (string * pyval)) (k : string)
    (v : pyval) :
  dict l !! k = Some v -> k ∈ l.*1.
Proof.
  induction l as [|[k0 v0] l IH] using rev_ind.
  - by rewrite dict_nil, lookup_empty.
  - rewrite dict_snoc, fmap_app, elem_of_app. cbn [fmap list_fmap fst].
    destruct (decide (k0 = k)) as [->|Hne].
    + intros _. right. apply list_elem_of_here.
    + rewrite lookup_insert_ne by done. intros H. left. by apply IH.
Qed.

Lemma attr_field_keys (f : pyfunc) (k : string)
    (wrap : pyval -> result pyval) (y : list (string * pyval)) (k' : string) :
  attr_field f k wrap = Ok y -> k' ∈ y.*1 -> k' = k.
Proof.
  unfold attr_field, getattr. destruct (__dict__ f !! k) as [v|]; simpl.
  - destruct (wrap v) as [t|e]; simpl.
    + intros [= <-]. by intros ->%list_elem_of_singleton.
    + destruct (is_AttributeError e); [|done]. intros [= <-].
      by intros ?%elem_of_nil.
  - intros [= <-]. by intros ?%elem_of_nil.
Qed.

Section BuilderExtras.
Variable dedent : string -> string.

(** The builder, step by step: the line of the documentation, the three
    optional fields, the dedented body and its split. *)
Lemma spec_from_func_pairs_unfold (f : pyfunc) :
  spec_from_func_pairs dedent f =
  (doc_line ← first_line (__doc__ f);
   ye ← attr_field f "extras" freeze;
   yd ← attr_field f "deps" freeze;
   yc ← attr_field f "control" Ok;
   body ← dedented_body dedent f;
   Ok ([("name", py_or doc_line (PStr (__name__ f)))] ++ ye ++ yd ++ yc
       ++ (if truthy (PStr (split_body body).1)
           then [("warmup", PStr (split_body body).1)] else [])
       ++ [("exercise", PStr (split_body body).2)])).
Proof.
  unfold spec_from_func_pairs, dedented_body, attr_field.
  destruct (first_line (__doc__ f)) as [doc_line|]; [|done].
  rewrite ?bind_Ok.
  destruct (suppress _ _ _) as [ye|]; [|done]. rewrite ?bind_Ok.
  destruct (suppress _ _ _) as [yd|]; [|done]. rewrite ?bind_Ok.
  destruct (suppress _ _ _) as [yc|]; [|done]. rewrite ?bind_Ok.
  destruct (getsource f) as [src|]; [|done]. rewrite ?bind_Ok.
  destruct (partition src _) as [[[h s] bi]|]; [|done]. rewrite ?bind_Ok.
  unfold rpartition, split_body. change (marker =? "")%string with false.
  cbv iota. change "# end warmup" with marker.
  by destruct (rfind_split marker (dedent bi)) as [[w x]|].
Qed.

(** The keys the generator of the builder yields. *)
Lemma spec_from_func_pairs_keys (f : pyfunc) (pairs : list (string * pyval))
    (k : string) :
  spec_from_func_pairs dedent f = Ok pairs -> k ∈ pairs.*1 ->
  k ∈ ["name"; "extras"; "deps"; "control"; "warmup"; "exercise"].
Proof.
  rewrite spec_from_func_pairs_unfold. intros E Hk.
  apply bind_Ok_inv in E as (doc_line & _ & E).
  apply bind_Ok_inv in E as (ye & Hye & E).
  apply bind_Ok_inv in E as (yd & Hyd & E).
  apply bind_Ok_inv in E as (yc & Hyc & E).
  apply bind_Ok_inv in E as (body & _ & E). injection E as <-.
  rewrite fmap_cons, elem_of_cons, !fmap_app, !elem_of_app in Hk.
  destruct Hk as [->|[Hk|[Hk|[Hk|[Hk|Hk]]]]].
  - in_list.
  - rewrite (attr_field_keys _ _ _ _ _ Hye Hk). in_list.
  - rewrite (attr_field_keys _ _ _ _ _ Hyd Hk). in_list.
  - rewrite (attr_field_keys _ _ _ _ _ Hyc Hk). in_list.
  - destruct (negb _); [|by apply elem_of_nil in Hk].
    apply list_elem_of_singleton in Hk as ->. in_list.
  - apply list_elem_of_singleton in Hk as ->. in_list.
Qed.

(** X1 -- a built spec has no key but [name], [extras], [deps],
    [control], [warmup] and [exercise]: in particular it never has a
    [target] or a [baseline] of its own. *)
Theorem spec_keys (f : pyfunc) (d : gmap string pyval) (k : string)
    (v : pyval) :
  spec_from_func dedent f = Ok d -> d !! k = Some v ->
  k ∈ ["name"; "extras"; "deps"; "control"; "warmup"; "exercise"] /\
  k <> "target" /\ k <> "baseline".
Proof.
  unfold spec_from_func. intros H Hk.
  apply fmap_Ok_inv in H as (pairs & E & ->).
  apply dict_lookup_Some_key in Hk.
  pose proof (spec_from_func_pairs_keys f pairs k E Hk) as Hin.
  split; [done|].
  split; intros ->; repeat (apply elem_of_cons in Hin as [?|Hin]; [done|]);
    by apply elem_of_nil in Hin.
Qed.

(** The line of a documentation, when it is not empty, is one stripped
    line. *)
Lemma first_line_text (v r : pyval) :
  first_line v = Ok r ->
  r = PNone \/
  exists l, r = PStr l /\
    (l = "" \/ (l <> "" /\ single_line l = true /\ trimmed l = true)).
Proof.
  unfold first_line, pass_none. destruct v as [|t| | |]; try done.
  - intros [= <-]. by left.
  - intros [= <-]. pose proof (splitlines_single_line t) as Hl.
    destruct (splitlines t) as [|l ls]; cbn [map]; [by left|].
    inversion Hl as [|? ? Hl1 _]; subst. right. exists (strip l).
    split; [done|]. destruct (decide (strip l = "")); [by left|]. right.
    split_and!; [done| |apply strip_trimmed]. by apply strip_single_line.
Qed.

(** X2 -- for a function whose documentation is [None] or a text, the
    name of a built spec is a text: it is the identifier of the function,
    or the first line of the documentation with the whitespace around it
    stripped, and that line is then not empty, holds no line boundary, and
    neither begins nor ends with whitespace. *)
Theorem spec_name_is_text (f : pyfunc) (d : gmap string pyval) :
  doc_ok f ->
  spec_from_func dedent f = Ok d ->
  exists n, d !! "name" = Some (PStr n) /\
    (n = __name__ f \/
     exists doc l ls,
       __doc__ f = PStr doc /\ splitlines doc = l :: ls /\ n = strip l /\
       n <> "" /\ single_line n = true /\ trimmed n = true).
Proof.
  intros Hdoc H.
  destruct (spec_from_func_anatomy dedent f d H)
    as (doc_line & body & Hn & _ & Hname & _).
  rewrite Hname. unfold py_or. destruct Hdoc as [Hd|[doc Hd]].
  - rewrite Hd in Hn. injection Hn as <-.
    exists (__name__ f). by split; [|left].
  - rewrite Hd, first_line_PStr in Hn. injection Hn as <-.
    pose proof (splitlines_single_line doc) as Hl.
    destruct (splitlines doc) as [|l ls] eqn:E; cbn [map].
    { exists (__name__ f). by split; [|left]. }
    inversion Hl as [|? ? Hl1 _]; subst.
    destruct (truthy (PStr (strip l))) eqn:Ht.
    + exists (strip l). split; [done|]. right. exists doc, l, ls.
      split_and!; try done.
      * by apply truthy_PStr.
      * by apply strip_single_line.
      * apply strip_trimmed.
    + exists (__name__ f). by split; [|left].
Qed.

Lemma split_body_rest (body : string) :
  str_in marker (split_body body).2 = false.
Proof.
  unfold split_body. destruct (rfind_split marker body) as [[a b]|] eqn:E.
  - by apply (rfind_split_rest marker body a b).
  - apply str_in_false. by apply rfind_split_None.
Qed.

(** X3 -- the exercise of a built spec never holds the marker: every
    marker of the body is in the warmup or is the one the body is split
    at. *)
Theorem exercise_has_no_marker (f : pyfunc) (d : gmap string pyval)
    (v : pyval) :
  spec_from_func dedent f = Ok d -> d !! "exercise" = Some v ->
  exists exercise, v = PStr exercise /\ str_in marker exercise = false.
Proof.
  intros H Hv.
  destruct (spec_from_func_anatomy dedent f d H)
    as (n & body & _ & _ & _ & _ & _ & _ & Hx).
  rewrite Hx in Hv. injection Hv as <-.
  eexists. split; [done|]. apply split_body_rest.
Qed.

Lemma freeze_Ok_inv (v t : pyval) :
  freeze v = Ok t -> v = PNone \/ is_Some (iter_items v).
Proof.
  destruct v; unfold freeze, pass_none, tuple; simpl; try done; eauto.
Qed.

Lemma attr_field_freeze_ok (f : pyfunc) (k : string) :
  attr_ok f k -> exists y, attr_field f k freeze = Ok y.
Proof.
  intros Hok. unfold attr_field, getattr.
  destruct (__dict__ f !! k) as [v|] eqn:E; [|by exists []].
  destruct (Hok v E) as [->|[items Hi]]; [by eexists|].
  rewrite bind_Ok, (freeze_iterable _ _ Hi). by eexists.
Qed.

Lemma attr_field_raw_ok (f : pyfunc) (k : string) :
  exists y, attr_field f k Ok = Ok y.
Proof.
  unfold attr_field, getattr. destruct (__dict__ f !! k); by eexists.
Qed.

Lemma first_line_ok (f : pyfunc) :
  doc_ok f -> exists n, first_line (__doc__ f) = Ok n.
Proof.
  intros [->|[t ->]]; [by exists PNone|]. rewrite first_line_PStr. eauto.
Qed.

Lemma dedented_body_ok (f : pyfunc) (src : string) :
  getsource f = Ok src -> exists body, dedented_body dedent f = Ok body.
Proof.
  intros Hsrc. unfold dedented_body, partition. rewrite Hsrc, bind_Ok.
  cbn [String.eqb Ascii.eqb Bool.eqb].
  destruct (find_split _ src) as [[h bi]|]; by eexists.
Qed.

(** X4 -- a spec is built whenever the documentation of the function is
    [None] or a text, its [extras] and [deps] attributes, where it has
    them, are [None] or can be iterated, and its source can be got; and
    whenever a spec is built, the source could be got and the [extras] and
    [deps] attributes, where the function has them, are [None] or can be
    iterated. *)
Theorem spec_from_func_builds_when (f : pyfunc) :
  (doc_ok f -> attr_ok f "extras" -> attr_ok f "deps" ->
   (exists src, getsource f = Ok src) ->
   exists d, spec_from_func dedent f = Ok d) /\
  ((exists d, spec_from_func dedent f = Ok d) ->
   attr_ok f "extras" /\ attr_ok f "deps" /\
   exists src, getsource f = Ok src).
Proof.
  split.
  - intros Hdoc He Hd (src & Hsrc).
    apply (spec_from_func_builds dedent f src); [done| |done].
    intros k v [->| ->]; [apply He|apply Hd].
  - intros [d H]. unfold spec_from_func in H.
    rewrite spec_from_func_pairs_unfold in H.
    apply fmap_Ok_inv in H as (pairs & E & _).
    apply bind_Ok_inv in E as (doc_line & _ & E).
    apply bind_Ok_inv in E as (ye & Hye & E).
    apply bind_Ok_inv in E as (yd & Hyd & E).
    apply bind_Ok_inv in E as (yc & _ & E).
    apply bind_Ok_inv in E as (body & Hbody & _).
    apply attr_field_freeze in Hye, Hyd. split_and!.
    + intros v Hv. rewrite Hv in Hye. destruct Hye as (t & Ht & _).
      by apply freeze_Ok_inv in Ht.
    + intros v Hv. rewrite Hv in Hyd. destruct Hyd as (t & Ht & _).
      by apply freeze_Ok_inv in Ht.
    + unfold dedented_body in Hbody. destruct (getsource f); [eauto|done].
Qed.

(** X5 -- when the source of the function cannot be got, the builder
    raises what [inspect.getsource] raised: nothing stands in for the
    spec. *)
Theorem source_error_propagates (f : pyfunc) (e : exc) :
  doc_ok f -> attr_ok f "extras" -> attr_ok f "deps" ->
  getsource f = Raise e ->
  spec_from_func dedent f = Raise e.
Proof.
  intros Hdoc He Hd Hsrc. unfold spec_from_func.
  rewrite spec_from_func_pairs_unfold.
  destruct (first_line_ok f Hdoc) as [n ->].
  destruct (attr_field_freeze_ok f "extras" He) as [ye ->].
  destruct (attr_field_freeze_ok f "deps" Hd) as [yd ->].
  destruct (attr_field_raw_ok f "control") as [yc ->].
  rewrite !bind_Ok. unfold dedented_body. by rewrite Hsrc.
Qed.

(** X6 -- for a function whose documentation is [None] or a text, an
    [extras] attribute that is neither [None] nor iterable makes the
    builder raise [TypeError], whatever the source of the function: only a
    missing attribute is passed over.  The same holds for [deps] when
    [extras] is in order. *)
Theorem non_iterable_attribute_raises (f : pyfunc) (k : string) (v : pyval) :
  doc_ok f ->
  k = "extras" \/ (k = "deps" /\ attr_ok f "extras") ->
  __dict__ f !! k = Some v -> v <> PNone -> iter_items v = None ->
  spec_from_func dedent f = Raise TypeError.
Proof.
  intros Hdoc Hk Hv Hnone Hiter. unfold spec_from_func.
  rewrite spec_from_func_pairs_unfold.
  destruct (first_line_ok f Hdoc) as [n ->]. rewrite bind_Ok.
  assert (attr_field f k freeze = Raise TypeError) as Hraise.
  { unfold attr_field, getattr. rewrite Hv, bind_Ok.
    destruct v; try done; discriminate Hiter. }
  destruct Hk as [->|[-> He]].
  - by rewrite Hraise.
  - destruct (attr_field_freeze_ok f "extras" He) as [ye ->].
    by rewrite bind_Ok, Hraise.
Qed.

(** X7 -- the body of the function is what follows the first colon and
    newline of its source; a source without one, as of a function
    written on one line, has the empty text for a body. *)
Theorem body_after_first_colon_newline (f : pyfunc) (src : string) :
  getsource f = Ok src ->
  (str_in colon_newline src = false ->
   dedented_body dedent f = Ok (dedent "")) /\
  (forall header body_ind,
     occurs colon_newline src header body_ind ->
     (forall h' b', occurs colon_newline src h' b' ->
        String.length header <= String.length h') ->
     dedented_body dedent f = Ok (dedent body_ind)).
Proof.
  intros Hsrc. unfold dedented_body, partition. rewrite Hsrc, bind_Ok.
  cbn [String.eqb Ascii.eqb Bool.eqb]. fold colon_newline. split.
  - intros H. by rewrite (find_split_None _ _ H).
  - intros h bi Ho Hfirst.
    assert (find_split colon_newline src = Some (h, bi)) as ->
      by (by apply find_split_spec).
    done.
Qed.
End BuilderExtras.

(** ** The discoverer: naming conventions, the module of a file *)

(** X8 -- the usual ways to name an experiment always pass the test: a
    name that ends in [_perf], one that begins with [perf_], and one that
    holds [_perf_]. *)
Theorem perf_affixes_eligible (a b : string) :
  eligible (a +:+ "_perf") = true /\
  eligible ("perf_" +:+ b) = true /\
  eligible (a +:+ "_perf_" +:+ b) = true.
Proof.
  split_and!; apply eligible_spec.
  - exists (a +:+ "_"), "". split_and!.
    + by rewrite app_assoc_s.
    + by rewrite last_char_snoc.
    + done.
  - exists "", ("_" +:+ b). by split_and!.
  - exists (a +:+ "_"), ("_" +:+ b). split_and!.
    + by rewrite app_assoc_s.
    + by rewrite last_char_snoc.
    + done.
Qed.

(** X9 -- a name that does not hold the text [perf], in small letters, is
    never eligible. *)
Theorem eligible_needs_perf (name : string) :
  str_in "perf" name = false -> eligible name = false.
Proof.
  intros H. apply not_true_iff_false. intros He.
  apply eligible_spec in He as (pre & post & Hn & _).
  rewrite str_in_false in H. by apply (H pre post).
Qed.

Lemma mapM_result_Ok {A B} (f : A -> result B) (l : list A) :
  (forall x, x ∈ l -> exists y, f x = Ok y) ->
  exists ys, mapM f l = Ok ys /\ Forall2 (fun x y => f x = Ok y) l ys.
Proof.
  induction l as [|x l IH]; intros H.
  - exists []. by split; [|constructor].
  - destruct (H x) as [y Hy]; [apply list_elem_of_here|].
    destruct IH as (ys & Hys & Hall).
    { intros x' Hx'. apply H. by apply list_elem_of_further. }
    exists (y :: ys). split; [|by constructor].
    cbn [mapM]. by rewrite Hy, bind_Ok, Hys.
Qed.

Lemma lookup_name_Some (n : string) (ns : list (string * pyobj)) :
  n ∈ ns.*1 -> exists o, lookup_name n ns = Some o /\ (n, o) ∈ ns.
Proof.
  unfold lookup_name. induction ns as [|[k o] ns IH]; cbn [fmap list_fmap].
  - by intros ?%elem_of_nil.
  - intros H. cbn [find fst]. destruct (String.eqb_spec k n) as [->|Hne].
    + exists o. split; [done|]. apply list_elem_of_here.
    + apply elem_of_cons in H as [->|H]; [done|].
      destruct (IH H) as (o' & Ho' & Hin). exists o'.
      split; [done|]. by apply list_elem_of_further.
Qed.

Lemma app_eq_app_longer (a x a' y : string) :
  a +:+ x = a' +:+ y -> String.length a < String.length a' ->
  exists c m, a' = a +:+ String c m /\ x = String c m +:+ y.
Proof.
  revert a'. induction a as [|d a IH]; intros a' H Hl.
  - destruct a' as [|c m]; [simpl in Hl; lia|]. by exists c, m.
  - destruct a' as [|c a']; [simpl in Hl; lia|].
    rewrite !app_cons in H. injection H as -> H. simpl in Hl.
    destruct (IH a' H) as (c' & m & -> & ->); [lia|]. by exists c', m.
Qed.

(** A text without the separator, after the separator, is after its last
    occurrence. *)
Lemma rfind_split_last_piece (sep stem ext : string) :
  str_in sep ext = false ->
  (exists c, sep = String c "") ->
  rfind_split sep (stem +:+ sep +:+ ext) = Some (stem, ext).
Proof.
  intros Hext [c ->]. apply rfind_split_spec. split; [done|].
  intros a' b' H. unfold occurs in H.
  destruct (decide (String.length a' <= String.length stem)); [done|].
  exfalso.
  destruct (app_eq_app_longer _ _ _ _ H) as (c' & m & -> & Hx); [lia|].
  rewrite !app_cons in Hx. injection Hx as <- Hx. rewrite app_empty_l in Hx.
  rewrite str_in_false in Hext. by apply (Hext m b').
Qed.

Lemma replace_slash_absent (s : string) :
  str_in "/" (replace s "/" ".") = false.
Proof.
  unfold replace. induction s as [|c s IH]; [done|].
  cbn [replace_go after_prefix]. destruct (Ascii.eqb_spec "/" c) as [<-|Hne].
  - cbn [String.length Nat.sub]. rewrite app_cons, app_empty_l.
    cbn [str_in after_prefix]. by rewrite IH.
  - cbn [str_in after_prefix].
    destruct (Ascii.eqb_spec "/" c) as [?|_]; [done|]. by rewrite IH.
Qed.

Lemma getattr_mod_Forall2 (m : module) (names : list string)
    (objs : list pyobj) :
  Forall2 (fun n o => getattr_mod (Some m) n = Ok o) names objs ->
  Forall (fun n => eligible n = true) names ->
  Forall2 (fun n o => eligible n = true /\ (n, o) ∈ namespace m) names objs.
Proof.
  induction 1 as [|n o ns os Hno _ IH]; [constructor|].
  intros [Hn Hns]%Forall_cons. constructor; [|by apply IH].
  split; [done|]. unfold getattr_mod in Hno.
  destruct (lookup_name n (namespace m)) as [o'|] eqn:El; [|done].
  injection Hno as <-. unfold lookup_name in El.
  destruct (find _ (namespace m)) as [[k o2]|] eqn:Ef; [|done].
  injection El as <-. apply find_some in Ef as [Hin Hk].
  apply String.eqb_eq in Hk. cbn in Hk. subst k. by apply list_elem_of_In.
Qed.

Section DiscoveryExtras.
Variable ModuleSpec : Type.
Variable find_spec : string -> result (option ModuleSpec).
Variable module_from_spec : ModuleSpec -> result module.
Variable exec_module : ModuleSpec -> module -> result module.

Local Abbreviation load :=
  (load_module ModuleSpec find_spec module_from_spec exec_module).
Local Abbreviation funcs :=
  (funcs_from_name ModuleSpec find_spec module_from_spec exec_module).

(** X10 -- on a module that loads and defines no [__dir__] of its own,
    the discoverer does not raise: it yields one object of the module for
    every eligible name of it, and the names come sorted. *)
Theorem discovery_on_loaded_module (name mod_path sep rest : string)
    (m : module) :
  rpartition name "." = Ok (mod_path, sep, rest) ->
  load (replace mod_path "/" ".") = Ok (Some m) ->
  default_dir m ->
  exists objs,
    funcs name = Ok objs /\
    Forall2 (fun n o => eligible n = true /\ (n, o) ∈ namespace m)
      (filter (fun n => eligible n = true) (dir (Some m))) objs /\
    Sorted String.le (dir (Some m)) /\
    dir (Some m) ≡ₚ (namespace m).*1.
Proof.
  intros Hname Hload _. unfold funcs_from_name.
  rewrite Hname, bind_Ok. cbv beta iota zeta. rewrite Hload, bind_Ok.
  assert (dir (Some m) ≡ₚ (namespace m).*1) as Hperm
    by apply merge_sort_Permutation.
  destruct (mapM_result_Ok (getattr_mod (Some m))
              (filter (fun n => eligible n = true) (dir (Some m))))
    as (objs & Hobjs & Hall).
  { intros n [_ Hn]%list_elem_of_filter. rewrite Hperm in Hn.
    destruct (lookup_name_Some _ _ Hn) as (o & Ho & _).
    exists o. unfold getattr_mod. by rewrite Ho. }
  exists objs. split_and!; [done| |apply Sorted_merge_sort, _|done].
  assert (Forall (fun n => eligible n = true)
            (filter (fun n => eligible n = true) (dir (Some m)))) as Hel.
  { apply Forall_forall. by intros n [? _]%list_elem_of_filter. }
  by apply getattr_mod_Forall2.
Qed.

(** X11 -- the module of a file: the text before the last dot of the
    name, with dots for the slashes.  A name without a dot stands for the
    module with the empty name. *)
Theorem module_of_file_name :
  (forall stem ext,
     str_in "." ext = false ->
     funcs (stem +:+ "." +:+ ext) =
     (mod_ ← load (replace stem "/" ".");
      mapM (getattr_mod mod_)
        (filter (fun n => eligible n = true) (dir mod_))) /\
     str_in "/" (replace stem "/" ".") = false) /\
  (forall name,
     str_in "." name = false ->
     funcs name =
     (mod_ ← load "";
      mapM (getattr_mod mod_)
        (filter (fun n => eligible n = true) (dir mod_)))).
Proof.
  split.
  - intros stem ext Hext. split; [|apply replace_slash_absent].
    unfold funcs_from_name.
    rewrite (rpartition_found _ "." stem ext); [done|done|].
    apply rfind_split_last_piece; [done|by exists "."%char].
  - intros name Hname. unfold funcs_from_name.
    rewrite (rpartition_not_found name "."); [done|done|].
    apply rfind_split_None. by apply str_in_false.
Qed.
End DiscoveryExtras.

(** ** The runner factory: what the cache keeps *)

Lemma find_key_elem (k : kwargs) (l : list (kwargs * Runner))
    (k' : kwargs) (r : Runner) :
  find (fun e => bool_decide (e.1 = k)) l = Some (k', r) -> (k, r) ∈ l.
Proof.
  intros H. pose proof (find_key_Some _ _ _ _ H) as ->.
  apply find_some in H as [H _]. by apply list_elem_of_In.
Qed.

Lemma filter_keys_all (k : kwargs) (l : list (kwargs * Runner)) :
  k ∉ l.*1 -> filter (fun e => e.1 <> k) l = l.
Proof.
  induction l as [|e l IH]; [done|]. rewrite fmap_cons.
  intros [Hne H]%not_elem_of_cons.
  rewrite filter_cons_True by (cbn; congruence). by rewrite IH.
Qed.

(** A hit only moves the entry of the key to the front. *)
Lemma move_to_front_Permutation (k : kwargs) (r : Runner)
    (l : list (kwargs * Runner)) :
  NoDup l.*1 -> (k, r) ∈ l ->
  (k, r) :: filter (fun e => e.1 <> k) l ≡ₚ l.
Proof.
  induction l as [|e l IH]; [by intros _ ?%elem_of_nil|].
  rewrite fmap_cons. intros [Hnot Hnd]%NoDup_cons Hin.
  apply elem_of_cons in Hin as [<-|Hin].
  - rewrite filter_cons_False by (cbn; tauto).
    by rewrite filter_keys_all.
  - assert (e.1 <> k) as Hne.
    { intros He. apply Hnot. rewrite He.
      apply list_elem_of_fmap. by exists (k, r). }
    rewrite filter_cons_True by done.
    rewrite Permutation_swap. by rewrite IH.
Qed.

Lemma initial_world_wf : cache_wf initial_world.
Proof.
  unfold cache_wf, initial_world. cbn. split_and!.
  - apply NoDup_nil_2.
  - apply NoDup_nil_2.
  - by intros k r ?%elem_of_nil.
  - lia.
Qed.

Lemma cache_clear_wf (w : world) : cache_wf (cache_clear w).
Proof.
  unfold cache_wf, cache_clear, set_cache. cbn. split_and!.
  - apply NoDup_nil_2.
  - apply NoDup_nil_2.
  - by intros k r ?%elem_of_nil.
  - lia.
Qed.

Lemma cache_wf_Permutation (c : list (kwargs * Runner)) (w : world) :
  c ≡ₚ cache w -> cache_wf w -> cache_wf (set_cache c w).
Proof.
  intros Hp (Hk & Hi & He & Hl). unfold cache_wf, set_cache. cbn.
  split_and!.
  - by rewrite Hp.
  - by rewrite Hp.
  - intros k r Hin. rewrite Hp in Hin. by apply He.
  - by rewrite Hp.
Qed.

Section CacheExtras.
Variable Runner_init : kwargs -> result unit.

Local Abbreviation factory := (runner_factory Runner_init).

(** The ways a call of the factory can go. *)
Lemma factory_cases (kw : kwargs) (w : world) :
  (forallb (fun kv => hashable kv.2) kw = false /\
   factory kw w = (Raise TypeError, w)) \/
  (exists r, (kw, r) ∈ cache w /\
     factory kw w =
     (Ok r, set_cache ((kw, r) :: filter (fun e => e.1 <> kw) (cache w)) w))
  \/
  ((kw ∉ (cache w).*1) /\
   ((exists e, Runner_init kw = Raise e /\
       factory kw w =
       (Raise e, {| cache := cache w; next_id := S (next_id w);
                    _instances := _instances w |})) \/
    (factory kw w =
     (Ok {| runner_id := next_id w; runner_kwargs := kw |},
      {| cache := (kw, {| runner_id := next_id w; runner_kwargs := kw |})
                  :: (if (length (cache w) <? maxsize)%nat then cache w
                      else removelast (cache w));
         next_id := S (next_id w);
         _instances := _instances w |})))).
Proof.
  unfold runner_factory.
  destruct (forallb _ kw); simpl; [|by left].
  right. destruct (find _ (cache w)) as [[k' r]|] eqn:Ef.
  - left. exists r. split; [by apply (find_key_elem _ _ k')|done].
  - right. split; [by apply find_key_None|].
    unfold BenchmarkRunner. destruct (Runner_init kw) as [[]|e]; [by right|].
    left. by exists e.
Qed.

(** The factory keeps its cache in order. *)
Lemma factory_wf (kw : kwargs) (w : world) :
  cache_wf w -> cache_wf (factory kw w).2.
Proof.
  intros Hwf.
  destruct (factory_cases kw w)
    as [[_ ->]|[(r & Hin & ->)|[Hnot [(e & _ & ->)| ->]]]]; cbn [snd].
  - done.
  - apply cache_wf_Permutation; [|done].
    destruct Hwf as (Hk & _). by apply move_to_front_Permutation.
  - destruct Hwf as (Hk & Hi & He & Hl). unfold cache_wf. cbn.
    split_and!; try done.
    intros k r Hin. destruct (He k r Hin). split; [done|lia].
  - destruct Hwf as (Hk & Hi & He & Hl).
    set (kept := if (length (cache w) <? maxsize)%nat then cache w
                 else removelast (cache w)).
    assert (exists dropped, cache w = kept ++ dropped /\
              S (length kept) <= maxsize) as (dropped & Hc & Hlen).
    { subst kept. destruct (length (cache w) <? maxsize)%nat eqn:El.
      - exists []. rewrite app_nil_r. apply Nat.ltb_lt in El. split; [done|lia].
      - destruct (cache w) as [|x l _] using rev_ind.
        + exists []. split; [done|]. cbn. unfold maxsize. lia.
        + exists [x]. rewrite removelast_last. split; [done|].
          rewrite length_app in Hl. cbn in Hl. lia. }
    rewrite Hc in Hk, Hi, He, Hnot.
    rewrite fmap_app in Hk. rewrite !fmap_app in Hi. rewrite fmap_app in Hnot.
    apply NoDup_app in Hk as (Hk & _), Hi as (Hi & _).
    apply not_elem_of_app in Hnot as [Hnot _].
    unfold cache_wf. cbn [cache next_id].
    rewrite !fmap_cons. cbn [fst snd runner_id]. split_and!.
    + by apply NoDup_cons.
    + apply NoDup_cons. split; [|done].
      intros (r & Hr & Hin)%list_elem_of_fmap.
      apply list_elem_of_fmap in Hin as ([k r'] & -> & Hin). cbn in Hr.
      destruct (He k r') as [_ Hlt]; [apply elem_of_app; by left|]. lia.
    + intros k r [[= -> ->]|Hin]%elem_of_cons; [cbn; split; [done|lia]|].
      destruct (He k r) as [? ?]; [apply elem_of_app; by left|].
      split; [done|lia].
    + cbn [length]. lia.
Qed.

Lemma run_calls_wf (calls : list kwargs) (w : world) :
  cache_wf w -> cache_wf (run_calls Runner_init calls w).
Proof.
  revert w. induction calls as [|k calls IH]; intros w Hwf; [done|].
  cbn [run_calls foldl]. by apply IH, factory_wf.
Qed.

Lemma factory_next_id (kw : kwargs) (w : world) :
  next_id w <= next_id (factory kw w).2.
Proof.
  destruct (factory_cases kw w)
    as [[_ ->]|[(r & Hin & ->)|[Hnot [(e & _ & ->)| ->]]]]; cbn; lia.
Qed.

Lemma run_calls_next_id (calls : list kwargs) (w : world) :
  next_id w <= next_id (run_calls Runner_init calls w).
Proof.
  revert w. induction calls as [|k calls IH]; intros w; [done|].
  cbn [run_calls foldl]. etrans; [apply (factory_next_id k)|apply IH].
Qed.

(** The runner a call returns is in the cache afterwards, under the
    arguments of the call, and was built from them. *)
Lemma factory_Ok_cached (kw : kwargs) (w w' : world) (r : Runner) :
  cache_wf w -> factory kw w = (Ok r, w') ->
  (kw, r) ∈ cache w' /\ runner_kwargs r = kw /\ runner_id r < next_id w' /\
  cache_wf w'.
Proof.
  intros Hwf H. pose proof (factory_wf kw w Hwf) as Hwf'.
  rewrite H in Hwf'. cbn in Hwf'.
  destruct (factory_Ok_front _ _ _ _ _ H) as [rest Hc].
  assert ((kw, r) ∈ cache w') as Hin by (rewrite Hc; apply list_elem_of_here).
  destruct Hwf' as (Hk & Hi & He & Hl). destruct (He kw r Hin).
  by split_and!.
Qed.
End CacheExtras.

Lemma NoDup_keys_functional (l : list (kwargs * Runner)) (k : kwargs)
    (r r' : Runner) :
  NoDup l.*1 -> (k, r) ∈ l -> (k, r') ∈ l -> r = r'.
Proof.
  induction l as [|e l IH]; [by intros _ ?%elem_of_nil|].
  rewrite fmap_cons. intros [Hnot Hnd]%NoDup_cons.
  assert (forall x, (k, x) ∈ l -> e.1 <> k) as Hne.
  { intros x Hx He. apply Hnot. rewrite He.
    apply list_elem_of_fmap. by exists (k, x). }
  intros [<-|H1]%elem_of_cons [E|H2]%elem_of_cons.
  - by injection E.
  - by destruct (Hne _ H2).
  - subst e. by destruct (Hne _ H1).
  - by apply IH.
Qed.

Lemma NoDup_ids_injective (l : list (kwargs * Runner)) (k k' : kwargs)
    (r r' : Runner) :
  NoDup (runner_id <$> l.*2) -> (k, r) ∈ l -> (k', r') ∈ l ->
  runner_id r = runner_id r' -> (k, r) = (k', r').
Proof.
  induction l as [|e l IH]; [by intros _ ?%elem_of_nil|].
  rewrite !fmap_cons. intros [Hnot Hnd]%NoDup_cons.
  assert (forall x y, (x, y) ∈ l -> runner_id e.2 <> runner_id y) as Hne.
  { intros x y Hy He. apply Hnot. rewrite He.
    apply list_elem_of_fmap. exists y. split; [done|].
    apply list_elem_of_fmap. by exists (x, y). }
  intros [<-|H1]%elem_of_cons [E|H2]%elem_of_cons Hid.
  - done.
  - by destruct (Hne _ _ H2).
  - subst e. by destruct (Hne _ _ H1).
  - by apply IH.
Qed.

Section CacheTheorems.
Variable Runner_init : kwargs -> result unit.

Local Abbreviation factory := (runner_factory Runner_init).

(** X12 -- whatever is asked of the factory, its cache never holds more
    than 128 runners, never two entries for the same arguments, never one
    runner under two entries, and every runner in it was built from the
    arguments it is kept under. *)
Theorem cache_stays_in_order (calls : list kwargs) (w : world) :
  cache_wf w ->
  let c := cache (run_calls Runner_init calls w) in
  length c <= maxsize /\ NoDup c.*1 /\ NoDup (runner_id <$> c.*2) /\
  forall k r, (k, r) ∈ c -> runner_kwargs r = k.
Proof.
  intros Hwf. destruct (run_calls_wf Runner_init calls w Hwf)
    as (Hk & Hi & He & Hl).
  split_and!; try done. intros k r Hin. by destruct (He k r Hin).
Qed.

(** X13 -- two calls whose arguments are texts or [None], as a target
    and a baseline are, and differ in a name, in a value or in their
    order, never return the same runner: the second runner is another
    object, built from the second arguments. *)
Theorem different_arguments_different_runners (kw kw' : kwargs)
    (w0 w1 w2 : world) (r r' : Runner) :
  cache_wf w0 ->
  plain_kwargs kw -> plain_kwargs kw' ->
  factory kw w0 = (Ok r, w1) -> factory kw' w1 = (Ok r', w2) ->
  kw <> kw' ->
  runner_id r <> runner_id r' /\
  runner_kwargs r = kw /\ runner_kwargs r' = kw'.
Proof.
  intros Hwf _ _ H1 H2 Hne.
  destruct (factory_Ok_cached _ _ _ _ _ Hwf H1) as (Hin1 & Hk1 & Hlt1 & Hwf1).
  destruct (factory_Ok_cached _ _ _ _ _ Hwf1 H2) as (_ & Hk2 & _ & _).
  split; [|done].
  destruct (factory_cases Runner_init kw' w1)
    as [[_ E]|[(r0 & Hin & E)|[Hnot [(e & _ & E)|E]]]];
    rewrite E in H2; try done.
  - injection H2 as -> _. intros Hid. destruct Hwf1 as (_ & Hi & _).
    pose proof (NoDup_ids_injective _ _ _ _ _ Hi Hin1 Hin Hid). congruence.
  - injection H2 as <- _. cbn. lia.
Qed.

(** X14 -- after a clear the factory has forgotten every runner: the same
    arguments give a runner that is built anew, another object than the
    one returned before the clear. *)
Theorem clear_forgets_runners (kw : kwargs) (w0 w1 w3 : world)
    (r r' : Runner) (calls : list kwargs) :
  cache_wf w0 ->
  factory kw w0 = (Ok r, w1) ->
  factory kw (pytest_sessionfinish (run_calls Runner_init calls w1))
    = (Ok r', w3) ->
  runner_id r <> runner_id r'.
Proof.
  intros Hwf H1 H2.
  destruct (factory_Ok_cached _ _ _ _ _ Hwf H1) as (_ & _ & Hlt & _).
  pose proof (run_calls_next_id Runner_init calls w1) as Hmono.
  apply factory_after_clear in H2. lia.
Qed.

(** X15 -- a call of the factory that raises, for arguments that cannot
    be hashed or in the constructor, leaves the cache and the registry as
    they were: a failure is never cached. *)
Theorem failed_call_leaves_cache (kw : kwargs) (w w' : world) (e : exc) :
  factory kw w = (Raise e, w') ->
  cache w' = cache w /\ _instances w' = _instances w.
Proof.
  intros H.
  destruct (factory_cases Runner_init kw w)
    as [[_ E]|[(r0 & Hin & E)|[Hnot [(e' & _ & E)|E]]]];
    rewrite E in H; try done; by injection H as _ <-.
Qed.

(** X16 -- a call for arguments that are in the cache builds nothing: it
    returns the cached runner, allocates no object, and leaves in the
    cache the entries that were there. *)
Theorem hit_builds_nothing (kw : kwargs) (w : world) (r : Runner) :
  cache_wf w -> (kw, r) ∈ cache w ->
  forallb (fun kv => hashable kv.2) kw = true ->
  exists w', factory kw w = (Ok r, w') /\
             next_id w' = next_id w /\ cache w' ≡ₚ cache w.
Proof.
  intros (Hk & _) Hin Hh.
  destruct (factory_cases Runner_init kw w)
    as [[E _]|[(r0 & Hin0 & E)|[Hnot _]]].
  - congruence.
  - pose proof (NoDup_keys_functional _ _ _ _ Hk Hin Hin0) as <-.
    eexists. split; [exact E|]. split; [done|].
    by apply move_to_front_Permutation.
  - destruct Hnot. apply list_elem_of_fmap. by exists (kw, r).
Qed.
End CacheTheorems.

Section SharingExtras.
Variable Runner_params : list string.
Variable Runner_init : kwargs -> result unit.

(** X17 -- two experiments whose specs agree on the parameters of the
    runner share one runner, whatever else their specs hold: the second
    gets the very runner the first got. *)
Theorem experiments_share_runner (e1 e2 : Experiment) (w w1 : world)
    (r : Runner) :
  (forall k, k ∈ Runner_params -> spec e1 !! k = spec e2 !! k) ->
  runner Runner_params Runner_init e1 w = (Ok r, w1) ->
  exists w2, runner Runner_params Runner_init e2 w1 = (Ok r, w2).
Proof.
  unfold runner. intros Hagree H.
  rewrite <- (assign_params_ext Runner_params _ _ Hagree).
  destruct (factory_Ok_front _ _ _ _ _ H) as [rest Hc].
  pose proof (factory_Ok_hashable _ _ _ _ _ H) as Hh.
  eexists. eapply factory_hit; [done|].
  rewrite Hc. by apply (find_key_first _ _ []), not_elem_of_nil.
Qed.

(** The arguments [assign_params] passes are the fields of the spec that
    are parameters, with their values. *)
Lemma assign_params_elem (params : list string) (ns : gmap string pyval)
    (k : string) (v : pyval) :
  (k, v) ∈ assign_params params ns <-> k ∈ params /\ ns !! k = Some v.
Proof.
  unfold assign_params. rewrite list_elem_of_omap. split.
  - intros (p & Hp & Hv). destruct (ns !! p) as [x|] eqn:E; [|done].
    cbn in Hv. injection Hv as -> ->. done.
  - intros [Hk Hv]. exists k. split; [done|]. by rewrite Hv.
Qed.

Lemma assign_params_keys (params : list string) (ns : gmap string pyval) :
  (assign_params params ns).*1 = filter (fun k => is_Some (ns !! k)) params.
Proof.
  unfold assign_params. induction params as [|p params IH]; [done|].
  cbn [omap list_omap]. rewrite filter_cons.
  destruct (ns !! p) as [x|] eqn:E.
  - rewrite decide_True by done. cbn. f_equal. apply IH.
  - rewrite decide_False by (by intros [? ?]). cbn. apply IH.
Qed.
End SharingExtras.

(** X18 -- a constructor is given the fields of the spec that are among
    its parameters, in the order of its signature, and nothing else: a
    field it does not know is left out, a parameter the spec does not
    hold is not passed. *)
Theorem assign_params_passes_known_fields (params : list string)
    (ns : gmap string pyval) :
  (forall k v, (k, v) ∈ assign_params params ns <->
               k ∈ params /\ ns !! k = Some v) /\
  (assign_params params ns).*1 = filter (fun k => is_Some (ns !! k)) params.
Proof. split; [apply assign_params_elem|apply assign_params_keys]. Qed.

(** ** The experiments: a run and the registry *)

Section RunExtras.
Variable Runner_params : list string.
Variable Runner_init : kwargs -> result unit.
Variable Runner_run : Runner -> Command -> result pyval.

Local Abbreviation run := (runtest Runner_params Runner_init Runner_run).
Local Abbreviation run_at :=
  (runtest_instance Runner_params Runner_init Runner_run).

Lemma runtest_instances (self : Experiment) (w : world) :
  _instances (run self w).2 = _instances w.
Proof.
  unfold runtest, runner.
  pose proof (runner_factory_instances Runner_init
                (assign_params Runner_params (spec self)) w) as Hf.
  destruct (runner_factory _ _ w) as [[r|e] w2]; [|done].
  by destruct (Runner_run r (command self)).
Qed.

(** X19 -- a run that raises, in the construction of the runner or in the
    run itself, leaves every experiment of the registry as it was: the
    experiment stays false and the summary will not report it. *)
Theorem failed_run_changes_nothing (i : nat) (w w' : world) (e : exc) :
  run_at i w = Some (Raise e, w') ->
  _instances w' = _instances w /\ reported w' = reported w.
Proof.
  unfold runtest_instance.
  destruct (_instances w !! i) as [self|]; [|done]. cbn.
  pose proof (runtest_instances self w) as Hi.
  destruct (run self w) as [[self'|e'] w1]; [done|].
  intros [= _ <-]. cbn in Hi. unfold reported. by rewrite Hi.
Qed.

(** X20 -- a completed run sets the results of the experiment it is the
    run of, and nothing else: the experiment keeps its name, its spec and
    its command, and every other experiment of the registry is as it
    was. *)
Theorem run_touches_one_experiment (i : nat) (w w' : world) :
  run_at i w = Some (Ok tt, w') ->
  length (_instances w') = length (_instances w) /\
  (forall j, j <> i -> _instances w' !! j = _instances w !! j) /\
  exists self self',
    _instances w !! i = Some self /\ _instances w' !! i = Some self' /\
    name self' = name self /\ spec self' = spec self /\
    command self' = command self /\ is_Some (results self').
Proof.
  unfold runtest_instance.
  destruct (_instances w !! i) as [self|] eqn:Ei; [|done]. cbn.
  pose proof (runtest_instances self w) as Hi.
  destruct (run self w) as [[self'|e'] w1] eqn:Er; [|done].
  intros [= <-]. cbn in Hi. cbn [_instances]. rewrite Hi.
  apply runtest_Ok in Er as (r & v & _ & _ & ->). split_and!.
  - by rewrite length_insert.
  - intros j Hj. by rewrite list_lookup_insert_ne.
  - exists self. eexists. split; [done|]. split.
    + apply list_lookup_insert_eq. by apply lookup_lt_Some in Ei.
    + by split_and!.
Qed.
End RunExtras.

(** ** The summary on the terminal *)

Section SummaryExtras.
Variable str_of : pyval -> string.

Lemma write_lines_reported (items : list Experiment) :
  Forall (fun e => Experiment_bool e = true) items ->
  exists lines,
    write_lines str_of items = (write_line <$> lines, Ok tt) /\
    Forall2 (fun e l => exists v, results e = Some v /\
                          l = name e +:+ ": " +:+ py_str str_of v)
      items lines.
Proof.
  induction items as [|e items IH]; intros H.
  - exists []. by split; [|constructor].
  - apply Forall_cons in H as [He H]. destruct (IH H) as (lines & Hw & Hall).
    unfold Experiment_bool in He. cbn [write_lines]. unfold Experiment_str.
    destruct (results e) as [v|] eqn:Ev; [|done].
    exists ((name e +:+ ": " +:+ py_str str_of v) :: lines).
    rewrite Hw. split; [done|]. constructor; [by exists v|done].
Qed.

(** X21 -- the summary never raises, though an experiment has no text
    before its run: it writes nothing when no experiment has run, and
    otherwise the section [perf] and, for every experiment that has run,
    in the order of their creation, the line of its name and results. *)
Theorem terminal_summary_reports_runs (w : world) :
  exists lines,
    pytest_terminal_summary str_of w =
    (match reported w with
     | [] => []
     | _ :: _ => section "perf" :: (write_line <$> lines)
     end, Ok tt) /\
    Forall2 (fun e l => exists v, results e = Some v /\
                          l = name e +:+ ": " +:+ py_str str_of v)
      (reported w) lines.
Proof.
  destruct (write_lines_reported (reported w)) as (lines & Hw & Hall).
  { apply Forall_forall. intros e He. unfold reported in He.
    by apply list_elem_of_filter in He as [? _]. }
  exists lines. split; [|done]. unfold pytest_terminal_summary.
  rewrite Hw. destruct (reported w); [|done].
  by inversion Hall.
Qed.
End SummaryExtras.

(** ** The collection of a file *)

Lemma endswith_unfold (s suffix : string) :
  endswith s suffix =
  if String.eqb s suffix then true
  else match s with
       | "" => false
       | String _ s' => endswith s' suffix
       end.
Proof. by destruct s. Qed.

Lemma endswith_true (s suffix : string) :
  endswith s suffix = true <-> exists stem, s = stem +:+ suffix.
Proof.
  induction s as [|c s IH]; rewrite endswith_unfold.
  - destruct (String.eqb_spec "" suffix) as [<-|Hne].
    + split; [by exists ""|done].
    + split; [done|]. intros [stem H]. symmetry in H.
      apply app_eq_empty in H as [_ H]. congruence.
  - destruct (String.eqb_spec (String c s) suffix) as [<-|Hne].
    + split; [by exists ""|done].
    + rewrite IH. split.
      * intros [stem ->]. by exists (String c stem).
      * intros [[|d stem] H]; [by rewrite app_empty_l in H|].
        rewrite app_cons in H. injection H as _ ->. by exists stem.
Qed.

(** X22 -- a file is taken for collection exactly when its name ends in
    [.py] and its text holds [pytest_perf]; the node then carries the
    target and the baseline of the configuration.  The text of a file
    with another name is not read: such a file is passed over even when
    it cannot be read. *)
Theorem collect_file_takes_perf_sources (p : path) (c : config) :
  (forall f,
     pytest_collect_file p c = Ok (Some f) <->
     (exists stem, basename p = stem +:+ ".py") /\
     (exists text, read_text p = Ok text /\
                   str_in "pytest_perf" text = true) /\
     f = {| File_name := nodename p; File_target := perf_target c;
            File_baseline := perf_baseline c |}) /\
  ((forall stem, basename p <> stem +:+ ".py") ->
   pytest_collect_file p c = Ok None).
Proof.
  unfold pytest_collect_file. split.
  - intros f. destruct (endswith (basename p) ".py") eqn:Ee.
    + apply endswith_true in Ee.
      destruct (read_text p) as [text|e]; cbn.
      * destruct (str_in "pytest_perf" text) eqn:Et.
        -- split; [intros [= <-]; eauto 6|]. by intros (_ & _ & ->).
        -- split; [done|]. intros (_ & (t & [= <-] & Ht) & _). congruence.
      * split; [done|]. by intros (_ & (t & Ht & _) & _).
    + split; [done|]. intros (Hs & _). apply endswith_true in Hs. congruence.
  - intros Hno. destruct (endswith (basename p) ".py") eqn:Ee; [|done].
    apply endswith_true in Ee as [stem Hs]. by destruct (Hno stem).
Qed.

Section CollectExtras.
Variable dedent : string -> string.
Variable ModuleSpec : Type.
Variable find_spec : string -> result (option ModuleSpec).
Variable module_from_spec : ModuleSpec -> result module.
Variable exec_module : ModuleSpec -> module -> result module.
Variable Command_params : list string.
Variable Command_init : kwargs -> result unit.
Variable str_of : pyval -> string.
Variable spec_from_object : pyobj -> result (gmap string pyval).

Local Abbreviation one :=
  (collect_one dedent Command_params Command_init str_of spec_from_object).
Local Abbreviation all :=
  (collect_all dedent Command_params Command_init str_of spec_from_object).
Local Abbreviation collect_file :=
  (collect dedent ModuleSpec find_spec module_from_spec exec_module
     Command_params Command_init str_of spec_from_object).

Lemma Experiment_init_world (nm : string) (sp : gmap string pyval)
    (w : world) :
  match Experiment_init Command_params Command_init nm sp w with
  | (Ok x, w') =>
      w' = {| cache := cache w; next_id := next_id w;
              _instances := _instances w ++ [x] |} /\
      name x = nm /\ spec x = sp /\ results x = None /\
      command_kwargs (command x) = assign_params Command_params sp
  | (Raise _, w') => w' = w
  end.
Proof. unfold Experiment_init. by destruct (Command_init _). Qed.

Lemma collect_one_world (self : File) (o : pyobj) (w : world) :
  cache (one self o w).2 = cache w /\ next_id (one self o w).2 = next_id w /\
  match (one self o w).1 with
  | Ok x => _instances (one self o w).2 = _instances w ++ [x]
  | Raise _ => _instances (one self o w).2 = _instances w
  end.
Proof.
  unfold collect_one. destruct (spec_from_obj _ _ o) as [sp|]; [|done].
  destruct (sp !! "name") as [n|]; [|done].
  pose proof (Experiment_init_world
                (File_name self +:+ ":" +:+ py_str str_of n)
                (merged_spec self sp) w) as H.
  destruct (Experiment_init _ _ _ _ w) as [[x|e] w'].
  - by destruct H as (-> & _).
  - by subst w'.
Qed.

Lemma collect_all_world (self : File) (objs : list pyobj) (w : world) :
  cache (all self objs w).2 = cache w /\
  next_id (all self objs w).2 = next_id w /\
  exists xs, _instances (all self objs w).2 = _instances w ++ xs /\
             forall ys, (all self objs w).1 = Ok ys -> ys = xs.
Proof.
  revert w. induction objs as [|o objs IH]; intros w; cbn [collect_all].
  - split_and!; try done. exists []. split; [by rewrite app_nil_r|].
    by intros ys [= <-].
  - destruct (collect_one_world self o w) as (Hc & Hn & Hi).
    destruct (one self o w) as [[x|e] w1]; cbn [fst snd] in *.
    + destruct (IH w1) as (Hc' & Hn' & xs & Hi' & Hys).
      destruct (all self objs w1) as [[ys|e] w2]; cbn [fst snd] in *.
      * split_and!; [congruence|congruence|]. exists (x :: xs).
        rewrite Hi', Hi, <- app_assoc. split; [done|].
        intros ys' [= <-]. by rewrite (Hys ys).
      * split_and!; [congruence|congruence|]. exists (x :: xs).
        rewrite Hi', Hi, <- app_assoc. by split.
    + split_and!; try done. exists []. by rewrite app_nil_r.
Qed.

(** X23 -- a collection touches the state through the registry only: the
    experiments it has made stand at the end of the registry, in the
    order they were made in, also when the collection raised on a later
    object; the cache of the factory is as it was. *)
Theorem collect_extends_registry (self : File) (w : world) :
  cache (collect_file self w).2 = cache w /\
  exists xs, _instances (collect_file self w).2 = _instances w ++ xs /\
             forall ys, (collect_file self w).1 = Ok ys -> ys = xs.
Proof.
  unfold collect. destruct (funcs_from_name _ _ _ _ _) as [objs|e].
  - destruct (collect_all_world self objs w) as (Hc & _ & H). by split.
  - split; [done|]. exists []. by rewrite app_nil_r.
Qed.

(** X24 -- a file whose module fails to load with an [Exception] gives no
    experiment, and the collection of it neither raises nor changes the
    state. *)
Theorem collect_nothing_from_failed_module (self : File)
    (mod_path sep rest : string) (e : exc) (w : world) :
  rpartition (File_name self) "." = Ok (mod_path, sep, rest) ->
  load_module_body ModuleSpec find_spec module_from_spec exec_module
    (replace mod_path "/" ".") = Raise e ->
  is_Exception e = true ->
  collect_file self w = (Ok [], w).
Proof.
  intros Hname Hbody He. unfold collect, funcs_from_name.
  rewrite Hname, bind_Ok. cbv beta iota zeta.
  unfold load_module. rewrite Hbody. cbn [suppress]. rewrite He, bind_Ok.
  by rewrite none_has_no_eligible_name.
Qed.

(** X25 -- the experiment made of a function: its name is the name of the
    file, a colon and the name of the spec; its spec is the spec of the
    function with the target and the baseline of the file added, no key
    of the function's spec changed; and it has no results yet. *)
Theorem collected_experiment (self : File) (f : pyfunc) (w w' : world)
    (x : Experiment) :
  one self (Func f) w = (Ok x, w') ->
  exists d n,
    spec_from_func dedent f = Ok d /\ d !! "name" = Some (PStr n) /\
    name x = File_name self +:+ ":" +:+ n /\
    spec x !! "target" = Some (File_target self) /\
    spec x !! "baseline" = Some (File_baseline self) /\
    (forall k v, d !! k = Some v -> spec x !! k = Some v) /\
    results x = None.
Proof.
  unfold collect_one, spec_from_obj.
  destruct (spec_from_func dedent f) as [d|] eqn:Ed; [|done].
  destruct (spec_from_func_anatomy dedent f d Ed)
    as (doc_line & body & Hn & _ & Hname & _).
  assert (exists n, d !! "name" = Some (PStr n)) as [n Hnm].
  { rewrite Hname. unfold py_or.
    destruct (first_line_text _ _ Hn) as [->|(l & -> & _)]; [by eexists|].
    destruct (truthy (PStr l)); by eexists. }
  rewrite Hnm. cbn [py_str].
  pose proof (Experiment_init_world (File_name self +:+ ":" +:+ n)
                (merged_spec self d) w) as H.
  destruct (Experiment_init _ _ _ _ w) as [[x'|e] w1]; [|done].
  intros [= -> ->]. destruct H as (_ & Hx & Hs & Hr & _).
  exists d, n. rewrite Hs. unfold merged_spec.
  assert (forall k, k = "target" \/ k = "baseline" -> d !! k = None) as Hfree.
  { intros k Hk. destruct (d !! k) as [v|] eqn:Ev; [|done]. exfalso.
    unfold spec_from_func in Ed.
    apply fmap_Ok_inv in Ed as (pairs & E & ->).
    apply dict_lookup_Some_key in Ev.
    pose proof (spec_from_func_pairs_keys dedent f pairs k E Ev) as Hin.
    destruct Hk as [-> | ->];
      repeat (apply elem_of_cons in Hin as [?|Hin]; [done|]);
      by apply elem_of_nil in Hin. }
  split_and!; try done.
  - rewrite lookup_union_r by (apply Hfree; by left).
    by rewrite dict_lookup_cons, lookup_field.
  - rewrite lookup_union_r by (apply Hfree; by right).
    by rewrite dict_lookup_cons, lookup_field.
  - intros k v Hk. by apply lookup_union_Some_l.
Qed.
End CollectExtras.

(** ** The further properties on the samples *)

(** [deps] is a key of the spec of [thing_perf]. *)
Lemma spec_keys_witness :
  "deps" ∈ ["name"; "extras"; "deps"; "control"; "warmup"; "exercise"] /\
  "deps" <> "target" /\ "deps" <> "baseline".
Proof.
  apply (spec_keys textwrap_dedent thing_perf thing_perf_spec "deps"
           (PTuple [PStr "lib"])).
  - vm_compute. reflexivity.
  - vm_compute. reflexivity.
Defined.

(** The name of the spec of [thing_perf]. *)
Lemma spec_name_is_text_witness :
  exists n, thing_perf_spec !! "name" = Some (PStr n) /\
    (n = __name__ thing_perf \/
     exists doc l ls,
       __doc__ thing_perf = PStr doc /\ splitlines doc = l :: ls /\
       n = strip l /\
       n <> "" /\ single_line n = true /\ trimmed n = true).
Proof.
  apply (spec_name_is_text textwrap_dedent thing_perf thing_perf_spec).
  - right. eexists. reflexivity.
  - vm_compute. reflexivity.
Defined.

(** The exercise of [twice_perf], whose body holds two markers. *)
Lemma exercise_has_no_marker_witness :
  exists exercise,
    PStr (LF +:+ "c()" +:+ LF) = PStr exercise /\
    str_in marker exercise = false.
Proof.
  apply (exercise_has_no_marker textwrap_dedent twice_perf twice_perf_spec).
  - vm_compute. reflexivity.
  - vm_compute. reflexivity.
Defined.

(** [synthetic_perf] has no source. *)
Lemma source_error_propagates_witness :
  spec_from_func textwrap_dedent synthetic_perf = Raise OSError.
Proof.
  apply (source_error_propagates textwrap_dedent synthetic_perf OSError).
  - left. reflexivity.
  - intros v H. vm_compute in H. discriminate H.
  - intros v H. vm_compute in H. discriminate H.
  - reflexivity.
Defined.

(** The [extras] of [bad_extras_perf] is a number. *)
Lemma non_iterable_attribute_raises_witness :
  spec_from_func textwrap_dedent bad_extras_perf = Raise TypeError.
Proof.
  apply (non_iterable_attribute_raises textwrap_dedent bad_extras_perf
           "extras" (PInt 3)).
  - right. exists "Bad extras". reflexivity.
  - left. reflexivity.
  - vm_compute. reflexivity.
  - discriminate.
  - reflexivity.
Defined.

(** [inline_perf] is written on one line: its body is empty. *)
Lemma body_after_first_colon_newline_witness :
  dedented_body textwrap_dedent inline_perf = Ok (textwrap_dedent "").
Proof.
  destruct (body_after_first_colon_newline textwrap_dedent inline_perf
              ("def inline_perf(): measure()" +:+ LF) eq_refl) as [H _].
  apply H. vm_compute. reflexivity.
Defined.

Lemma eligible_needs_perf_witness : eligible "benchmark_widget" = false.
Proof. apply eligible_needs_perf. vm_compute. reflexivity. Defined.

(** The discovery on [sample_module]. *)
Lemma discovery_on_loaded_module_witness :
  exists objs,
    funcs_from_name unit find_any create_empty exec_sample
      "tests/perf_widget.py" = Ok objs /\
    Forall2 (fun n o => eligible n = true /\ (n, o) ∈ namespace sample_module)
      (filter (fun n => eligible n = true) (dir (Some sample_module))) objs /\
    Sorted String.le (dir (Some sample_module)) /\
    dir (Some sample_module) ≡ₚ (namespace sample_module).*1.
Proof.
  apply (discovery_on_loaded_module unit find_any create_empty exec_sample
           "tests/perf_widget.py" "tests/perf_widget" "." "py").
  - vm_compute. reflexivity.
  - vm_compute. reflexivity.
  - reflexivity.
Defined.

(** The cache after three calls. *)
Lemma cache_stays_in_order_witness :
  let c := cache (run_calls always_ok (map sample_kwargs (seq 0 3))
                    initial_world) in
  length c <= maxsize /\ NoDup c.*1 /\ NoDup (runner_id <$> c.*2) /\
  forall k r, (k, r) ∈ c -> runner_kwargs r = k.
Proof.
  apply (cache_stays_in_order always_ok (map sample_kwargs (seq 0 3))
           initial_world).
  exact initial_world_wf.
Defined.

Lemma different_arguments_different_runners_witness :
  runner_id (sample_runner_of 0 0) <> runner_id (sample_runner_of 1 1) /\
  runner_kwargs (sample_runner_of 0 0) = sample_kwargs 0 /\
  runner_kwargs (sample_runner_of 1 1) = sample_kwargs 1.
Proof.
  apply (different_arguments_different_runners always_ok
           (sample_kwargs 0) (sample_kwargs 1) initial_world
           (runner_factory always_ok (sample_kwargs 0) initial_world).2
           (runner_factory always_ok (sample_kwargs 1)
              (runner_factory always_ok (sample_kwargs 0) initial_world).2).2
           (sample_runner_of 0 0) (sample_runner_of 1 1)).
  - exact initial_world_wf.
  - repeat constructor.
  - repeat constructor.
  - vm_compute. reflexivity.
  - vm_compute. reflexivity.
  - discriminate.
Defined.

Lemma clear_forgets_runners_witness :
  runner_id (sample_runner_of 0 0) <> runner_id (sample_runner_of 2 0).
Proof.
  apply (clear_forgets_runners always_ok (sample_kwargs 0) initial_world
           (runner_factory always_ok (sample_kwargs 0) initial_world).2
           (runner_factory always_ok (sample_kwargs 0)
              (pytest_sessionfinish
                 (run_calls always_ok [sample_kwargs 1]
                    (runner_factory always_ok (sample_kwargs 0)
                       initial_world).2))).2
           (sample_runner_of 0 0) (sample_runner_of 2 0)
           [sample_kwargs 1]).
  - exact initial_world_wf.
  - vm_compute. reflexivity.
  - vm_compute. reflexivity.
Defined.

Lemma failed_call_leaves_cache_witness :
  cache sample_world_ran = cache sample_world_ran /\
  _instances sample_world_ran = _instances sample_world_ran.
Proof.
  apply (failed_call_leaves_cache always_ok unhashable_kwargs
           sample_world_ran sample_world_ran TypeError).
  vm_compute. reflexivity.
Defined.

Lemma hit_builds_nothing_witness :
  exists w',
    runner_factory always_ok [("target", PStr "."); ("baseline", PNone)]
      sample_world_ran = (Ok sample_runner, w') /\
    next_id w' = next_id sample_world_ran /\
    cache w' ≡ₚ cache sample_world_ran.
Proof.
  apply (hit_builds_nothing always_ok).
  - unfold cache_wf, sample_world_ran. cbn. split_and!.
    + apply NoDup_singleton.
    + apply NoDup_singleton.
    + intros k r [= -> ->]%list_elem_of_singleton. cbn. split; [done|lia].
    + unfold maxsize. lia.
  - apply list_elem_of_here.
  - reflexivity.
Defined.

Lemma experiments_share_runner_witness :
  exists w2,
    runner ["target"; "baseline"] always_ok other_experiment sample_world_ran
    = (Ok sample_runner, w2).
Proof.
  apply (experiments_share_runner ["target"; "baseline"] always_ok
           sample_experiment other_experiment sample_world).
  - intros k Hk. apply elem_of_cons in Hk as [->|Hk]; [reflexivity|].
    apply list_elem_of_singleton in Hk as ->. reflexivity.
  - vm_compute. reflexivity.
Defined.

Lemma failed_run_changes_nothing_witness :
  _instances {| cache := cache sample_world_ran;
                next_id := next_id sample_world_ran;
                _instances := _instances sample_world |}
  = _instances sample_world /\
  reported {| cache := cache sample_world_ran;
              next_id := next_id sample_world_ran;
              _instances := _instances sample_world |}
  = reported sample_world.
Proof.
  apply (failed_run_changes_nothing ["target"; "baseline"] always_ok
           run_fails 0 sample_world _ (OtherException "RuntimeError")).
  vm_compute. reflexivity.
Defined.

Lemma run_touches_one_experiment_witness :
  length [sample_experiment_ran] = length (_instances sample_world) /\
  (forall j, j <> 0 ->
     [sample_experiment_ran] !! j = _instances sample_world !! j) /\
  exists self self',
    _instances sample_world !! 0 = Some self /\
    [sample_experiment_ran] !! 0 = Some self' /\
    name self' = name self /\ spec self' = spec self /\
    command self' = command self /\ is_Some (results self').
Proof.
  apply (run_touches_one_experiment ["target"; "baseline"] always_ok
           run_empty 0 sample_world
           {| cache := cache sample_world_ran;
              next_id := next_id sample_world_ran;
              _instances := [sample_experiment_ran] |}).
  vm_compute. reflexivity.
Defined.

Lemma collect_nothing_from_failed_module_witness :
  collect textwrap_dedent unit find_nothing create_empty exec_fails
    ["exercise"; "warmup"] always_ok no_str no_spec sample_file initial_world
  = (Ok [], initial_world).
Proof.
  apply (collect_nothing_from_failed_module textwrap_dedent unit find_nothing
           create_empty exec_fails ["exercise"; "warmup"] always_ok no_str
           no_spec sample_file "tests/perf_widget" "." "py" AttributeError).
  - vm_compute. reflexivity.
  - vm_compute. reflexivity.
  - reflexivity.
Defined.

Lemma collected_experiment_witness :
  exists d n,
    spec_from_func textwrap_dedent thing_perf = Ok d /\
    d !! "name" = Some (PStr n) /\
    name collected_thing = File_name sample_file +:+ ":" +:+ n /\
    spec collected_thing !! "target" = Some (File_target sample_file) /\
    spec collected_thing !! "baseline" = Some (File_baseline sample_file) /\
    (forall k v, d !! k = Some v -> spec collected_thing !! k = Some v) /\
    results collected_thing = None.
Proof.
  apply (collected_experiment textwrap_dedent ["exercise"; "warmup"]
           always_ok no_str no_spec sample_file thing_perf initial_world
           {| cache := []; next_id := 0; _instances := [collected_thing] |}).
  vm_compute. reflexivity.
Defined.
